(** * ECHO — EmbeddingPanel: selection-to-analysis coordination

    A shallow embedding of the state logic of
    [Frontend/src/components/panels/EmbeddingPanel.tsx]: the selection
    handlers with their change detection and debounce timer, the analysis
    fetchers with their try/catch/finally completion, the analysis-type
    resolver and the embedding fetch trigger.

    The component is a React function component.  Its hook state and props
    are the record [panel]; what the JavaScript runtime owns (the clock, the
    table of live timers, the fetches awaiting a response) together with the
    logs of issued requests is the record [world].  One event handler runs
    to completion per step and React commits the state updates it made as
    one batch, so the states between steps are the rendered ones. *)

From Stdlib Require Import Ascii.
From stdpp Require Import base list strings sorting pretty.

Local Open Scope string_scope.

(** ** Strings and arrays of strings *)

(** [s.includes(sub)]: [sub] occurs somewhere in [s]. *)
Fixpoint startsWith (s sub : string) : bool :=
  match sub, s with
  | EmptyString, _ => true
  | String c sub', String d s' => if decide (c = d) then startsWith s' sub' else false
  | String _ _, EmptyString => false
  end.

Fixpoint includes (s sub : string) : bool :=
  startsWith s sub ||
  match s with
  | EmptyString => false
  | String _ s' => includes s' sub
  end.

(** [arr.sort()] with the default comparator orders strings by their code
    units; the order is total and antisymmetric, so the outcome does not
    depend on the sorting algorithm the engine uses. *)
Definition sort (arr : list string) : list string := merge_sort String.le arr.

(** [arr.join(sep)] *)
Fixpoint join (sep : string) (arr : list string) : string :=
  match arr with
  | [] => EmptyString
  | x :: rest =>
      match rest with
      | [] => x
      | _ :: _ => x +:+ sep +:+ join sep rest
      end
  end.

(** The string both handlers compare: [files.sort().join(',')]. *)
Definition selectionKey (files : list string) : string := join "," (sort files).

(** ** JSON values, responses and thrown values *)

#[local] Unset Elimination Schemes.
Inductive json :=
| JNull
| JBool (b : bool)
| JNumber (literal : string)
| JString (s : string)
| JArray (items : list json)
| JObject (members : list (string * json)).
#[local] Set Elimination Schemes.

(** What a [catch] clause may receive: an [Error] with its message, or some
    other thrown value. *)
Inductive thrown :=
| ErrorObject (message : string)
| OtherValue.

(** How a [fetch] ends: the promise rejects (transport failure), or a
    response arrives with its status, its body as text and the outcome of
    parsing that body as JSON. *)
Inductive response :=
| Rejected (e : thrown)
| Resolved (status : N) (text : string) (parsed : thrown + json).

(** [response.ok]: the status is in the range 200-299. *)
Definition ok (status : N) : bool := ((200 <=? status) && (status <=? 299))%N.


(** ** The panel: props, context values and hook state *)

Inductive AnalysisKind := predictions | common_terms | audio_features.

Global Instance AnalysisKind_eq_dec : EqDecision AnalysisKind.
Proof. solve_decision. Defined.

(** [model], [dataset], [availableFiles] are props; [embeddingData] and
    [isLoading] come from [useEmbedding()]; the rest is [useState].
    ([selectionMode] only configures the plot and is left out.) *)
Record panel := {
  model : string;
  dataset : string;
  availableFiles : list string;
  embeddingData : option json;
  isLoading : bool;
  reductionMethod : string;
  is3D : bool;
  analysisType : AnalysisKind;
  selectedByAngle : list string;
  selectedPoints2D : list string;
  audioFrequencyAnalysis : option json;
  batchPrediction : option json;
  whisperAnalysis : option json;
  isLoadingAnalysis : bool;
  analysisError : option string
}.

(** The state setters of [useState], and the prop and context updates. *)
Definition setReductionMethod (v : string) (p : panel) : panel :=
  {| model := model p; dataset := dataset p; availableFiles := availableFiles p;
     embeddingData := embeddingData p; isLoading := isLoading p; reductionMethod := v;
     is3D := is3D p; analysisType := analysisType p; selectedByAngle := selectedByAngle
     p; selectedPoints2D := selectedPoints2D p; audioFrequencyAnalysis :=
     audioFrequencyAnalysis p; batchPrediction := batchPrediction p; whisperAnalysis :=
     whisperAnalysis p; isLoadingAnalysis := isLoadingAnalysis p; analysisError :=
     analysisError p |}.
Definition setIs3D (v : bool) (p : panel) : panel :=
  {| model := model p; dataset := dataset p; availableFiles := availableFiles p;
     embeddingData := embeddingData p; isLoading := isLoading p; reductionMethod :=
     reductionMethod p; is3D := v; analysisType := analysisType p; selectedByAngle :=
     selectedByAngle p; selectedPoints2D := selectedPoints2D p; audioFrequencyAnalysis
     := audioFrequencyAnalysis p; batchPrediction := batchPrediction p; whisperAnalysis
     := whisperAnalysis p; isLoadingAnalysis := isLoadingAnalysis p; analysisError :=
     analysisError p |}.
Definition setAnalysisType (v : AnalysisKind) (p : panel) : panel :=
  {| model := model p; dataset := dataset p; availableFiles := availableFiles p;
     embeddingData := embeddingData p; isLoading := isLoading p; reductionMethod :=
     reductionMethod p; is3D := is3D p; analysisType := v; selectedByAngle :=
     selectedByAngle p; selectedPoints2D := selectedPoints2D p; audioFrequencyAnalysis
     := audioFrequencyAnalysis p; batchPrediction := batchPrediction p; whisperAnalysis
     := whisperAnalysis p; isLoadingAnalysis := isLoadingAnalysis p; analysisError :=
     analysisError p |}.
Definition setSelectedByAngle (v : list string) (p : panel) : panel :=
  {| model := model p; dataset := dataset p; availableFiles := availableFiles p;
     embeddingData := embeddingData p; isLoading := isLoading p; reductionMethod :=
     reductionMethod p; is3D := is3D p; analysisType := analysisType p; selectedByAngle
     := v; selectedPoints2D := selectedPoints2D p; audioFrequencyAnalysis :=
     audioFrequencyAnalysis p; batchPrediction := batchPrediction p; whisperAnalysis :=
     whisperAnalysis p; isLoadingAnalysis := isLoadingAnalysis p; analysisError :=
     analysisError p |}.
Definition setSelectedPoints2D (v : list string) (p : panel) : panel :=
  {| model := model p; dataset := dataset p; availableFiles := availableFiles p;
     embeddingData := embeddingData p; isLoading := isLoading p; reductionMethod :=
     reductionMethod p; is3D := is3D p; analysisType := analysisType p; selectedByAngle
     := selectedByAngle p; selectedPoints2D := v; audioFrequencyAnalysis :=
     audioFrequencyAnalysis p; batchPrediction := batchPrediction p; whisperAnalysis :=
     whisperAnalysis p; isLoadingAnalysis := isLoadingAnalysis p; analysisError :=
     analysisError p |}.
Definition setAudioFrequencyAnalysis (v : option json) (p : panel) : panel :=
  {| model := model p; dataset := dataset p; availableFiles := availableFiles p;
     embeddingData := embeddingData p; isLoading := isLoading p; reductionMethod :=
     reductionMethod p; is3D := is3D p; analysisType := analysisType p; selectedByAngle
     := selectedByAngle p; selectedPoints2D := selectedPoints2D p;
     audioFrequencyAnalysis := v; batchPrediction := batchPrediction p; whisperAnalysis
     := whisperAnalysis p; isLoadingAnalysis := isLoadingAnalysis p; analysisError :=
     analysisError p |}.
Definition setBatchPrediction (v : option json) (p : panel) : panel :=
  {| model := model p; dataset := dataset p; availableFiles := availableFiles p;
     embeddingData := embeddingData p; isLoading := isLoading p; reductionMethod :=
     reductionMethod p; is3D := is3D p; analysisType := analysisType p; selectedByAngle
     := selectedByAngle p; selectedPoints2D := selectedPoints2D p;
     audioFrequencyAnalysis := audioFrequencyAnalysis p; batchPrediction := v;
     whisperAnalysis := whisperAnalysis p; isLoadingAnalysis := isLoadingAnalysis p;
     analysisError := analysisError p |}.
Definition setWhisperAnalysis (v : option json) (p : panel) : panel :=
  {| model := model p; dataset := dataset p; availableFiles := availableFiles p;
     embeddingData := embeddingData p; isLoading := isLoading p; reductionMethod :=
     reductionMethod p; is3D := is3D p; analysisType := analysisType p; selectedByAngle
     := selectedByAngle p; selectedPoints2D := selectedPoints2D p;
     audioFrequencyAnalysis := audioFrequencyAnalysis p; batchPrediction :=
     batchPrediction p; whisperAnalysis := v; isLoadingAnalysis := isLoadingAnalysis p;
     analysisError := analysisError p |}.
Definition setIsLoadingAnalysis (v : bool) (p : panel) : panel :=
  {| model := model p; dataset := dataset p; availableFiles := availableFiles p;
     embeddingData := embeddingData p; isLoading := isLoading p; reductionMethod :=
     reductionMethod p; is3D := is3D p; analysisType := analysisType p; selectedByAngle
     := selectedByAngle p; selectedPoints2D := selectedPoints2D p;
     audioFrequencyAnalysis := audioFrequencyAnalysis p; batchPrediction :=
     batchPrediction p; whisperAnalysis := whisperAnalysis p; isLoadingAnalysis := v;
     analysisError := analysisError p |}.
Definition setAnalysisError (v : option string) (p : panel) : panel :=
  {| model := model p; dataset := dataset p; availableFiles := availableFiles p;
     embeddingData := embeddingData p; isLoading := isLoading p; reductionMethod :=
     reductionMethod p; is3D := is3D p; analysisType := analysisType p; selectedByAngle
     := selectedByAngle p; selectedPoints2D := selectedPoints2D p;
     audioFrequencyAnalysis := audioFrequencyAnalysis p; batchPrediction :=
     batchPrediction p; whisperAnalysis := whisperAnalysis p; isLoadingAnalysis :=
     isLoadingAnalysis p; analysisError := v |}.
Definition withModel (v : string) (p : panel) : panel :=
  {| model := v; dataset := dataset p; availableFiles := availableFiles p; embeddingData
     := embeddingData p; isLoading := isLoading p; reductionMethod := reductionMethod p;
     is3D := is3D p; analysisType := analysisType p; selectedByAngle := selectedByAngle
     p; selectedPoints2D := selectedPoints2D p; audioFrequencyAnalysis :=
     audioFrequencyAnalysis p; batchPrediction := batchPrediction p; whisperAnalysis :=
     whisperAnalysis p; isLoadingAnalysis := isLoadingAnalysis p; analysisError :=
     analysisError p |}.
Definition withDataset (v : string) (p : panel) : panel :=
  {| model := model p; dataset := v; availableFiles := availableFiles p; embeddingData
     := embeddingData p; isLoading := isLoading p; reductionMethod := reductionMethod p;
     is3D := is3D p; analysisType := analysisType p; selectedByAngle := selectedByAngle
     p; selectedPoints2D := selectedPoints2D p; audioFrequencyAnalysis :=
     audioFrequencyAnalysis p; batchPrediction := batchPrediction p; whisperAnalysis :=
     whisperAnalysis p; isLoadingAnalysis := isLoadingAnalysis p; analysisError :=
     analysisError p |}.
Definition withAvailableFiles (v : list string) (p : panel) : panel :=
  {| model := model p; dataset := dataset p; availableFiles := v; embeddingData :=
     embeddingData p; isLoading := isLoading p; reductionMethod := reductionMethod p;
     is3D := is3D p; analysisType := analysisType p; selectedByAngle := selectedByAngle
     p; selectedPoints2D := selectedPoints2D p; audioFrequencyAnalysis :=
     audioFrequencyAnalysis p; batchPrediction := batchPrediction p; whisperAnalysis :=
     whisperAnalysis p; isLoadingAnalysis := isLoadingAnalysis p; analysisError :=
     analysisError p |}.
Definition withEmbeddingData (v : option json) (p : panel) : panel :=
  {| model := model p; dataset := dataset p; availableFiles := availableFiles p;
     embeddingData := v; isLoading := isLoading p; reductionMethod := reductionMethod p;
     is3D := is3D p; analysisType := analysisType p; selectedByAngle := selectedByAngle
     p; selectedPoints2D := selectedPoints2D p; audioFrequencyAnalysis :=
     audioFrequencyAnalysis p; batchPrediction := batchPrediction p; whisperAnalysis :=
     whisperAnalysis p; isLoadingAnalysis := isLoadingAnalysis p; analysisError :=
     analysisError p |}.
Definition withIsLoading (v : bool) (p : panel) : panel :=
  {| model := model p; dataset := dataset p; availableFiles := availableFiles p;
     embeddingData := embeddingData p; isLoading := v; reductionMethod :=
     reductionMethod p; is3D := is3D p; analysisType := analysisType p; selectedByAngle
     := selectedByAngle p; selectedPoints2D := selectedPoints2D p;
     audioFrequencyAnalysis := audioFrequencyAnalysis p; batchPrediction :=
     batchPrediction p; whisperAnalysis := whisperAnalysis p; isLoadingAnalysis :=
     isLoadingAnalysis p; analysisError := analysisError p |}.

(** ** The runtime around the panel *)

Inductive endpoint := audio_frequency_batch | wav2vec2_batch | whisper_batch.

(** The JSON body of an analysis request: [{filenames, model?, dataset?}]. *)
Record request := {
  url : endpoint;
  filenames : list string;
  body_model : option string;
  body_dataset : option string
}.

(** A call [fetchEmbeddings(model, dataset, files, method, nComponents)] of
    the projection service. *)
Record projection := {
  proj_model : string;
  proj_dataset : string;
  proj_files : list string;
  proj_method : string;
  nComponents : nat
}.

(** A pending [setTimeout] of a selection handler.  Its callback closes over
    the handler's argument and over the render the handler belongs to, from
    which [fetchAnalysis] reads [analysisType], [model] and [dataset]. *)
Record timer := {
  deadline : nat;
  selectedFiles : list string;
  rendered : panel
}.

(** [ui] is the component; [clock], [nextTimerId] and [timers] (oldest
    first) are the runtime's timer queue; [debounceRef] is the ref of that
    name; [inflight] are the fetches whose promise is still pending;
    [fetched] and [projections] log every request issued, oldest first. *)
Record world := {
  ui : panel;
  clock : nat;
  nextTimerId : nat;
  timers : list (nat * timer);
  debounceRef : option nat;
  inflight : list request;
  fetched : list request;
  projections : list projection
}.

Definition update_ui (f : panel → panel) (w : world) : world :=
  {| ui := f (ui w); clock := clock w; nextTimerId := nextTimerId w;
     timers := timers w; debounceRef := debounceRef w; inflight := inflight w;
     fetched := fetched w; projections := projections w |}.

(** [clearTimeout(id)] *)
Definition clearTimeout (id : nat) (w : world) : world :=
  {| ui := ui w; clock := clock w; nextTimerId := nextTimerId w;
     timers := filter (λ it, it.1 ≠ id) (timers w);
     debounceRef := debounceRef w; inflight := inflight w;
     fetched := fetched w; projections := projections w |}.

(** [debounceRef.current = setTimeout(callback, delay)] *)
Definition setTimeout_debounceRef (files : list string) (r : panel) (delay : nat)
    (w : world) : world :=
  {| ui := ui w; clock := clock w; nextTimerId := S (nextTimerId w);
     timers := timers w ++
       [(nextTimerId w,
         {| deadline := clock w + delay; selectedFiles := files; rendered := r |})];
     debounceRef := Some (nextTimerId w); inflight := inflight w;
     fetched := fetched w; projections := projections w |}.

(** [fetch(url, {method: "POST", body})]: the request leaves and its promise
    is pending. *)
Definition fetch (q : request) (w : world) : world :=
  {| ui := ui w; clock := clock w; nextTimerId := nextTimerId w;
     timers := timers w; debounceRef := debounceRef w;
     inflight := inflight w ++ [q];
     fetched := fetched w ++ [q]; projections := projections w |}.

(** [fetchEmbeddings(...)] of the embedding context. *)
Definition fetchEmbeddings (m d : string) (files : list string) (method : string)
    (n : nat) (w : world) : world :=
  {| ui := ui w; clock := clock w; nextTimerId := nextTimerId w;
     timers := timers w; debounceRef := debounceRef w; inflight := inflight w;
     fetched := fetched w;
     projections := projections w ++
       [{| proj_model := m; proj_dataset := d; proj_files := files;
           proj_method := method; nComponents := n |}] |}.

(** A string in a condition: the empty string is falsy. *)
Definition truthy (s : string) : bool := bool_decide (s ≠ EmptyString).

(** ** The component's functions *)

Definition getAvailableAnalysisTypes (model : string) : list AnalysisKind :=
  if bool_decide (model = "wav2vec2") then [predictions; audio_features]
  else if includes model "whisper" then [common_terms; audio_features]
  else [audio_features].

Definition clearAnalysisResults (p : panel) : panel :=
  setWhisperAnalysis None (setBatchPrediction None (setAudioFrequencyAnalysis None p)).

(** The effect on [[model]]: [availableTypes[0]] is the first element; the
    list is never empty ([getAvailableAnalysisTypes_nonempty]). *)
Definition analysisTypeEffect (p : panel) : panel :=
  let availableTypes := getAvailableAnalysisTypes (model p) in
  if bool_decide (analysisType p ∈ availableTypes) then p
  else
    match availableTypes with
    | first :: _ => clearAnalysisResults (setAnalysisType first p)
    | [] => clearAnalysisResults p
    end.

(** The effect on [[model, dataset, availableFiles, reductionMethod,
    fetchEmbeddings]]. *)
Definition embeddingEffect (w : world) : world :=
  let p := ui w in
  if bool_decide (0 < length (availableFiles p)) && truthy (model p) && truthy (dataset p)
  then fetchEmbeddings (model p) (dataset p) (availableFiles p) (reductionMethod p)
         (if is3D p then 3 else 2) w
  else w.

Definition handleFetchEmbeddings (w : world) : world :=
  let p := ui w in
  if bool_decide (0 < length (availableFiles p))
  then fetchEmbeddings (model p) (dataset p) (availableFiles p) (reductionMethod p)
         (if is3D p then 3 else 2) w
  else w.

(** [setReductionMethod(method)]; the re-render then runs the embedding
    effect when the method is a new one. *)
Definition handleReductionMethodChange (method : string) (w : world) : world :=
  let changed := bool_decide (method ≠ reductionMethod (ui w)) in
  let w := update_ui (setReductionMethod method) w in
  if changed then embeddingEffect w else w.

Definition handle3DToggle (checked : bool) (w : world) : world :=
  let p := ui w in
  let w := update_ui (setIs3D checked) w in
  if bool_decide (is_Some (embeddingData p)) && bool_decide (0 < length (availableFiles p))
  then fetchEmbeddings (model p) (dataset p) (availableFiles p) (reductionMethod p)
         (if checked then 3 else 2) w
  else w.

(** The items the analysis-type select renders for the current model. *)
Definition selectItems (model : string) : list AnalysisKind :=
  (if bool_decide (model = "wav2vec2") then [predictions] else []) ++
  (if includes model "whisper" then [common_terms] else []) ++
  [audio_features].

(** The [onValueChange] of the analysis-type select. *)
Definition handleAnalysisTypeChange (value : AnalysisKind) (w : world) : world :=
  update_ui (λ p, setSelectedPoints2D []
                    (setSelectedByAngle [] (clearAnalysisResults (setAnalysisType value p)))) w.

(** *** The three fetchers

    Each fetcher is split at its [await]: the part that runs when it is
    called, and the part that runs when the response is there.  [r] is the
    render whose closure is running; state updates go to the live state. *)

Definition requestDataset (r : panel) : option string :=
  if truthy (dataset r) then Some (dataset r) else None.

Definition fetchFrequencyAnalysis (r : panel) (files : list string) (w : world) : world :=
  match files with
  | [] => w
  | _ :: _ =>
      let w := update_ui (setIsLoadingAnalysis true) w in
      let w := update_ui (setAnalysisError None) w in
      fetch {| url := audio_frequency_batch; filenames := files;
               body_model := Some (model r); body_dataset := requestDataset r |} w
  end.

Definition fetchBatchPredictions (r : panel) (files : list string) (w : world) : world :=
  match files with
  | [] => w
  | _ :: _ =>
      let w := update_ui (setIsLoadingAnalysis true) w in
      let w := update_ui (setAnalysisError None) w in
      fetch {| url := wav2vec2_batch; filenames := files;
               body_model := None; body_dataset := requestDataset r |} w
  end.

Definition fetchWhisperAnalysis (r : panel) (files : list string) (w : world) : world :=
  match files with
  | [] => w
  | _ :: _ =>
      let w := update_ui (setIsLoadingAnalysis true) w in
      let w := update_ui (setAnalysisError None) w in
      fetch {| url := whisper_batch; filenames := files;
               body_model := Some (model r); body_dataset := requestDataset r |} w
  end.

Definition fetchAnalysis (r : panel) (files : list string) (w : world) : world :=
  match analysisType r with
  | predictions => fetchBatchPredictions r files w
  | common_terms => fetchWhisperAnalysis r files w
  | audio_features => fetchFrequencyAnalysis r files w
  end.

(** The rest of the [try] block up to the parsed body: it yields the
    analysis, or throws.  [what] is the fetcher's wording in
    [`Failed to fetch ${what}: ${response.status} - ${errorText}`]. *)
Definition awaitAnalysis (what : string) (r : response) : thrown + json :=
  match r with
  | Rejected e => inl e
  | Resolved status errorText parsed =>
      if ok status then parsed
      else inl (ErrorObject
                  ("Failed to fetch " +:+ what +:+ ": " +:+ pretty status +:+ " - " +:+ errorText))
  end.

(** [error instanceof Error ? error.message : 'Unknown error occurred'] *)
Definition errorMessage (error : thrown) : string :=
  match error with
  | ErrorObject message => message
  | OtherValue => "Unknown error occurred"
  end.

(** The value a state slot takes from a parsed body: JSON [null] is the
    empty slot. *)
Definition slotValue (analysis : json) : option json :=
  match analysis with
  | JNull => None
  | _ => Some analysis
  end.

Definition fetchFrequencyAnalysis_resume (r : response) (p : panel) : panel :=
  let p :=
    match awaitAnalysis "audio frequency analysis" r with
    | inr analysis =>
        setWhisperAnalysis None
          (setBatchPrediction None (setAudioFrequencyAnalysis (slotValue analysis) p))
    | inl error =>
        setAudioFrequencyAnalysis None (setAnalysisError (Some (errorMessage error)) p)
    end in
  setIsLoadingAnalysis false p.

Definition fetchBatchPredictions_resume (r : response) (p : panel) : panel :=
  let p :=
    match awaitAnalysis "batch predictions" r with
    | inr prediction =>
        setWhisperAnalysis None
          (setAudioFrequencyAnalysis None (setBatchPrediction (slotValue prediction) p))
    | inl error =>
        setBatchPrediction None (setAnalysisError (Some (errorMessage error)) p)
    end in
  setIsLoadingAnalysis false p.

Definition fetchWhisperAnalysis_resume (r : response) (p : panel) : panel :=
  let p :=
    match awaitAnalysis "whisper analysis" r with
    | inr analysis =>
        setBatchPrediction None
          (setAudioFrequencyAnalysis None (setWhisperAnalysis (slotValue analysis) p))
    | inl error =>
        setWhisperAnalysis None (setAnalysisError (Some (errorMessage error)) p)
    end in
  setIsLoadingAnalysis false p.

Definition resume (u : endpoint) : response → panel → panel :=
  match u with
  | audio_frequency_batch => fetchFrequencyAnalysis_resume
  | wav2vec2_batch => fetchBatchPredictions_resume
  | whisper_batch => fetchWhisperAnalysis_resume
  end.

(** *** The selection handlers

    [arr.sort()] sorts in place: the stored array is sorted where it
    stands, and the argument is sorted before it is stored and captured.
    (The caller's array is reordered with it; as a set of files it is the
    same.) *)

Definition handleAngleRangeSelect (files : list string) (w : world) : world :=
  let r := ui w in
  let currentSelection := join "," (sort (selectedByAngle r)) in
  let w := update_ui (setSelectedByAngle (sort (selectedByAngle r))) w in
  let newSelection := join "," (sort files) in
  let files := sort files in
  if bool_decide (currentSelection ≠ newSelection) then
    let w := update_ui (setSelectedByAngle files) w in
    let w := match debounceRef w with
             | Some id => clearTimeout id w
             | None => w
             end in
    setTimeout_debounceRef files r 300 w
  else w.

Definition handle2DSelectionChange (files : list string) (w : world) : world :=
  let r := ui w in
  let currentSelection := join "," (sort (selectedPoints2D r)) in
  let w := update_ui (setSelectedPoints2D (sort (selectedPoints2D r))) w in
  let newSelection := join "," (sort files) in
  let files := sort files in
  if bool_decide (currentSelection ≠ newSelection) then
    let w := update_ui (setSelectedPoints2D files) w in
    let w := match debounceRef w with
             | Some id => clearTimeout id w
             | None => w
             end in
    setTimeout_debounceRef files r 300 w
  else w.

(** The callback given to [setTimeout]. *)
Definition debounced (t : timer) (w : world) : world :=
  if bool_decide (0 < length (selectedFiles t))
  then fetchAnalysis (rendered t) (selectedFiles t) w
  else update_ui clearAnalysisResults w.

(** ** Events *)

(** Time passes: the timers that come due are taken off the queue and their
    callbacks run, oldest first. *)
Definition due (t' : nat) (it : nat * timer) : Prop := (deadline it.2 ≤ t')%nat.

Global Instance due_dec t' it : Decision (due t' it).
Proof. unfold due. apply _. Defined.

Definition atTime (t' : nat) (remaining : list (nat * timer)) (w : world) : world :=
  {| ui := ui w; clock := t'; nextTimerId := nextTimerId w;
     timers := remaining;
     debounceRef := debounceRef w; inflight := inflight w;
     fetched := fetched w; projections := projections w |}.

Definition elapse (dt : nat) (w : world) : world :=
  let t' := clock w + dt in
  let firing := filter (due t') (timers w) in
  let w := atTime t' (filter (λ it, ¬ due t' it) (timers w)) w in
  foldl (λ w it, debounced it.2 w) w firing.

(** The [i]-th pending fetch settles with [r]: its fetcher resumes. *)
Definition respond (i : nat) (r : response) (w : world) : world :=
  match inflight w !! i with
  | None => w
  | Some q =>
      update_ui (resume (url q) r)
        {| ui := ui w; clock := clock w; nextTimerId := nextTimerId w;
           timers := timers w; debounceRef := debounceRef w;
           inflight := delete i (inflight w);
           fetched := fetched w; projections := projections w |}
  end.

(** The parent renders the panel with new props; [files'] is [Some] when a
    new array is passed.  After the commit the effects whose dependencies
    changed run, in the order they are declared. *)
Definition propsChange (model' dataset' : string) (files' : option (list string))
    (w : world) : world :=
  let p := ui w in
  let modelChanged := bool_decide (model' ≠ model p) in
  let changed := modelChanged || bool_decide (dataset' ≠ dataset p) || bool_decide (is_Some files') in
  let w := update_ui (withModel model') w in
  let w := update_ui (withDataset dataset') w in
  let w := match files' with
           | Some files => update_ui (withAvailableFiles files) w
           | None => w
           end in
  let w := if modelChanged then update_ui analysisTypeEffect w else w in
  if changed then embeddingEffect w else w.

(** The embedding context publishes new values ([fetchEmbeddings] keeps its
    identity, so no effect runs). *)
Definition contextChange (data : option json) (loading : bool) (w : world) : world :=
  update_ui (withIsLoading loading) (update_ui (withEmbeddingData data) w).

(** What can happen to a mounted panel.  The select only reports a value it
    offers as an item; the 3D switch is disabled while the embedding is
    loading, the refresh button while it is loading or there are no
    files. *)
Inductive event :=
| onAngleRangeSelect (files : list string)
| onSelectionChange (files : list string)
| onAnalysisTypeChange (value : AnalysisKind)
| onReductionMethodChange (method : string)
| on3DToggle (checked : bool)
| onRefreshClick
| PropsChange (model' dataset' : string) (files' : option (list string))
| ContextChange (data : option json) (loading : bool)
| Elapse (dt : nat)
| Respond (i : nat) (r : response).

Definition step (w : world) (e : event) : world :=
  match e with
  | onAngleRangeSelect files => handleAngleRangeSelect files w
  | onSelectionChange files => handle2DSelectionChange files w
  | onAnalysisTypeChange value =>
      if bool_decide (value ∈ selectItems (model (ui w)))
      then handleAnalysisTypeChange value w
      else w
  | onReductionMethodChange method => handleReductionMethodChange method w
  | on3DToggle checked =>
      if isLoading (ui w) then w else handle3DToggle checked w
  | onRefreshClick =>
      if isLoading (ui w) || bool_decide (length (availableFiles (ui w)) = 0)
      then w
      else handleFetchEmbeddings w
  | PropsChange model' dataset' files' => propsChange model' dataset' files' w
  | ContextChange data loading => contextChange data loading w
  | Elapse dt => elapse dt w
  | Respond i r => respond i r w
  end.

Definition run (w : world) (evs : list event) : world := foldl step w evs.

(** The panel is mounted: the [useState] initial values, then every effect
    runs once. *)
Definition initialPanel (model dataset : string) (files : list string)
    (data : option json) (loading : bool) : panel :=
  {| model := model; dataset := dataset; availableFiles := files;
     embeddingData := data; isLoading := loading;
     reductionMethod := "pca"; is3D := false; analysisType := audio_features;
     selectedByAngle := []; selectedPoints2D := [];
     audioFrequencyAnalysis := None; batchPrediction := None; whisperAnalysis := None;
     isLoadingAnalysis := false; analysisError := None |}.

Definition mount (model dataset : string) (files : list string)
    (data : option json) (loading : bool) : world :=
  embeddingEffect
    (update_ui analysisTypeEffect
       {| ui := initialPanel model dataset files data loading;
          clock := 0; nextTimerId := 1; timers := []; debounceRef := None;
          inflight := []; fetched := []; projections := [] |}).

(** The default props: [model = "whisper-base"], [dataset = "common-voice"],
    [availableFiles = []]. *)
Definition defaultMount : world := mount "whisper-base" "common-voice" [] None false.

(** ** Observations on the result slots *)

Definition slots (p : panel) : option json * option json * option json :=
  (audioFrequencyAnalysis p, batchPrediction p, whisperAnalysis p).

Definition occupied (slot : option json) : nat := if slot is Some _ then 1 else 0.

(** The number of result slots that hold an analysis. *)
Definition populated (p : panel) : nat :=
  let '(frequency, prediction, terms) := slots p in
  occupied frequency + occupied prediction + occupied terms.

(** The slot a fetcher writes. *)
Definition targetSlot (u : endpoint) : panel → option json :=
  match u with
  | audio_frequency_batch => audioFrequencyAnalysis
  | wav2vec2_batch => batchPrediction
  | whisper_batch => whisperAnalysis
  end.

(** The slots with only the one of [u] holding [v]. *)
Definition only (u : endpoint) (v : option json) : option json * option json * option json :=
  match u with
  | audio_frequency_batch => (v, None, None)
  | wav2vec2_batch => (None, v, None)
  | whisper_batch => (None, None, v)
  end.

(** The slots with the one of [u] emptied. *)
Definition without (u : endpoint) (p : panel) : option json * option json * option json :=
  match u with
  | audio_frequency_batch => (None, batchPrediction p, whisperAnalysis p)
  | wav2vec2_batch => (audioFrequencyAnalysis p, None, whisperAnalysis p)
  | whisper_batch => (audioFrequencyAnalysis p, batchPrediction p, None)
  end.

(** A response that makes the fetcher throw: the fetch is rejected, the
    status is not a success, or the body does not parse. *)
Definition failed (r : response) : bool :=
  match r with
  | Rejected _ => true
  | Resolved status _ parsed =>
      negb (ok status) || (if parsed is inl _ then true else false)
  end.

(** Everything of the panel that is neither a result slot, nor the loading
    flag, nor the error message of the analysis. *)
Definition outsideAnalysis (p : panel) :=
  (model p, dataset p, availableFiles p, embeddingData p, isLoading p,
   reductionMethod p, is3D p, analysisType p, selectedByAngle p, selectedPoints2D p).

(** The state of the debounce timer between events: no timer is overdue,
    at most one is live, and a live one is the one [debounceRef] names. *)
Definition debounceInvariant (w : world) : bool :=
  forallb (λ it, bool_decide (clock w < deadline it.2)%nat) (timers w) &&
  match timers w with
  | [] => true
  | [it] => bool_decide (debounceRef w = Some it.1)
  | _ :: _ :: _ => false
  end.

(** [if (debounceRef.current) clearTimeout(debounceRef.current)] *)
Definition cancelPending (w : world) : world :=
  match debounceRef w with
  | Some id => clearTimeout id w
  | None => w
  end.

(** The two gestures and what belongs to each: its handler and its stored
    selection. *)
Inductive gesture := angleRange | planar.

Definition handler (g : gesture) : list string → world → world :=
  match g with
  | angleRange => handleAngleRangeSelect
  | planar => handle2DSelectionChange
  end.

Definition stored (g : gesture) : panel → list string :=
  match g with
  | angleRange => selectedByAngle
  | planar => selectedPoints2D
  end.

(** The request [fetchAnalysis] sends for [files] from the closure of the
    render [r]. *)
Definition analysisRequest (r : panel) (files : list string) : request :=
  match analysisType r with
  | predictions =>
      {| url := wav2vec2_batch; filenames := files;
         body_model := None; body_dataset := requestDataset r |}
  | common_terms =>
      {| url := whisper_batch; filenames := files;
         body_model := Some (model r); body_dataset := requestDataset r |}
  | audio_features =>
      {| url := audio_frequency_batch; filenames := files;
         body_model := Some (model r); body_dataset := requestDataset r |}
  end.

(** A burst of selection changes of one gesture: each change is followed by
    a wait. *)
Fixpoint burst (g : gesture) (changes : list (list string * nat)) (w : world) : world :=
  match changes with
  | [] => w
  | (files, gap) :: rest => burst g rest (elapse gap (handler g files w))
  end.

(** Every selection of the sequence has another key than the one before
    it, starting from the key [current]. *)
Fixpoint changing (current : string) (selections : list (list string)) : Prop :=
  match selections with
  | [] => True
  | files :: rest => current ≠ selectionKey files ∧ changing (selectionKey files) rest
  end.

(** What the closure of a render gives to [fetchAnalysis]. *)
Definition closureView (p : panel) : AnalysisKind * string * string :=
  (analysisType p, model p, dataset p).

(** The runtime's side of the world that the debounce logic lives in. *)
Definition timerView (w : world) : nat * list (nat * timer) * option nat :=
  (clock w, timers w, debounceRef w).

(** The projection request for the files of the panel. *)
Definition projectionOf (p : panel) (method : string) (threeD : bool) : projection :=
  {| proj_model := model p; proj_dataset := dataset p; proj_files := availableFiles p;
     proj_method := method; nComponents := if threeD then 3 else 2 |}.

(** The panel after the parent passed new props. *)
Definition withProps (model' dataset' : string) (files' : option (list string))
    (p : panel) : panel :=
  let p := withDataset dataset' (withModel model' p) in
  match files' with
  | Some files => withAvailableFiles files p
  | None => p
  end.

(** The active analysis type is one the model allows. *)
Definition legalKind (p : panel) : Prop :=
  analysisType p ∈ getAvailableAnalysisTypes (model p).

(** A file name that is not empty and has no comma in it. *)
Fixpoint commaFree (s : string) : bool :=
  match s with
  | EmptyString => true
  | String c s' => negb (bool_decide (c = ","%char)) && commaFree s'
  end.

Definition plain (name : string) : Prop := name ≠ EmptyString ∧ commaFree name = true.

(** Every selection of the sequence has other files than the one before
    it, starting from the selection [current]. *)
Fixpoint differing (current : list string) (selections : list (list string)) : Prop :=
  match selections with
  | [] => True
  | files :: rest => ¬ current ≡ₚ files ∧ differing files rest
  end.

(** ** What the panel renders

    The parts of the returned tree that are decided by the state: the
    status messages, the disabled flags of the controls, and the analysis
    panel with the branch of its body the conditional chain picks. *)

(** A JSON value in a condition.  [nonzero] is the engine's reading of a
    number literal: whether the number it denotes is other than zero. *)
Definition jsonTruthy (nonzero : string → bool) (j : json) : bool :=
  match j with
  | JNull => false
  | JBool b => b
  | JNumber literal => nonzero literal
  | JString s => truthy s
  | JArray _ => true
  | JObject _ => true
  end.

(** [slot ? ... : ...]: the analysis of a slot that passes the test. *)
Definition shown (nonzero : string → bool) (slot : option json) : option json :=
  match slot with
  | Some analysis => if jsonTruthy nonzero analysis then Some analysis else None
  | None => None
  end.

Inductive analysisBody :=
| LoadingBody (kind : AnalysisKind)
| ErrorBody (message : string)
| FrequencyBody (analysis : json)
| PredictionBody (prediction : json)
| TranscriptBody (analysis : json)
| NoDataBody.

(** The chain [analysisType === 'audio-features' && audioFrequencyAnalysis
    ? ... : analysisType === 'predictions' && batchPrediction ? ... :
    analysisType === 'common-terms' && whisperAnalysis ? ... : "No analysis
    data available"]. *)
Definition dataBody (nonzero : string → bool) (p : panel) : analysisBody :=
  match (if bool_decide (analysisType p = audio_features)
         then shown nonzero (audioFrequencyAnalysis p) else None) with
  | Some analysis => FrequencyBody analysis
  | None =>
      match (if bool_decide (analysisType p = predictions)
             then shown nonzero (batchPrediction p) else None) with
      | Some prediction => PredictionBody prediction
      | None =>
          match (if bool_decide (analysisType p = common_terms)
                 then shown nonzero (whisperAnalysis p) else None) with
          | Some analysis => TranscriptBody analysis
          | None => NoDataBody
          end
      end
  end.

(** [isLoadingAnalysis ? ... : analysisError ? ... : ...] *)
Definition analysisBodyOf (nonzero : string → bool) (p : panel) : analysisBody :=
  if isLoadingAnalysis p then LoadingBody (analysisType p)
  else
    match analysisError p with
    | Some message => if truthy message then ErrorBody message else dataBody nonzero p
    | None => dataBody nonzero p
    end.

(** The analysis panel: rendered when either selection has files. *)
Definition analysisPanel (nonzero : string → bool) (p : panel) : option analysisBody :=
  if bool_decide (0 < length (selectedByAngle p))%nat
     || bool_decide (0 < length (selectedPoints2D p))%nat
  then Some (analysisBodyOf nonzero p)
  else None.

(** [is3D ? selectedByAngle : selectedPoints2D] *)
Definition activeSelection (p : panel) : list string :=
  if is3D p then selectedByAngle p else selectedPoints2D p.

(** The number in the badge and in "Selected Files (n total)". *)
Definition fileCount (p : panel) : nat := length (activeSelection p).

(** [rows.slice(0, k)] with the line "... and n more" that is rendered when
    [rows.length > k]: the rows listed and the number in that line. *)
Definition previewRows {A} (k : nat) (rows : list A) : list A * option nat :=
  (take k rows,
   if bool_decide (k < length rows)%nat then Some (length rows - k)%nat else None).

(** The "Selected Files" list of the analysis panel. *)
Definition selectedFilesPreview (p : panel) : list string * option nat :=
  previewRows 5 (activeSelection p).


Definition refreshHint (p : panel) : bool :=
  bool_decide (0 < length (availableFiles p))%nat
  && negb (bool_decide (is_Some (embeddingData p))) && negb (isLoading p).


Definition refreshDisabled (p : panel) : bool :=
  isLoading p || bool_decide (length (availableFiles p) = 0)%nat.


(** [name.replace(/_/g, ' ')] of the feature labels. *)
Fixpoint replaceUnderscores (name : string) : string :=
  match name with
  | EmptyString => EmptyString
  | String c rest =>
      String (if bool_decide (c = "_"%char) then " "%char else c) (replaceUnderscores rest)
  end.

(** The cleanup of the unmount effect. *)
Definition unmountCleanup (w : world) : world :=
  match debounceRef w with
  | Some id => clearTimeout id w
  | None => w
  end.

(** ** Observations for the invariants *)

Definition selections (p : panel) : list string * list string :=
  (selectedByAngle p, selectedPoints2D p).

(** An event that is not a call of a selection handler. *)
Definition notSelection (e : event) : Prop :=
  match e with
  | onAngleRangeSelect _ | onSelectionChange _ => False
  | _ => True
  end.

(** An analysis request as the fetchers build it from a legal render. *)
Definition wellFormedRequest (q : request) : Prop :=
  filenames q ≠ [] ∧ sort (filenames q) = filenames q ∧
  body_dataset q ≠ Some EmptyString ∧
  match url q with
  | wav2vec2_batch => body_model q = None
  | whisper_batch => ∃ m, body_model q = Some m ∧ includes m "whisper" = true
  | audio_frequency_batch => is_Some (body_model q)
  end.

(** A pending timer as the handlers create it in a legal render. *)
Definition wellFormedTimer (t : timer) : Prop :=
  sort (selectedFiles t) = selectedFiles t ∧ legalKind (rendered t).

(** A projection request as the three call sites build it. *)
Definition wellFormedProjection (q : projection) : Prop :=
  proj_files q ≠ [] ∧ (nComponents q = 2 ∨ nComponents q = 3)%nat.

(** The body the panel shows for an analysis of a kind. *)
Definition bodyOfKind (kind : AnalysisKind) (analysis : json) : analysisBody :=
  match kind with
  | predictions => PredictionBody analysis
  | common_terms => TranscriptBody analysis
  | audio_features => FrequencyBody analysis
  end.

(** The event of a gesture, and a burst as a list of events. *)
Definition selectionEvent (g : gesture) (files : list string) : event :=
  match g with
  | angleRange => onAngleRangeSelect files
  | planar => onSelectionChange files
  end.

Definition burstEvents (g : gesture) (changes : list (list string * nat)) : list event :=
  flat_map (λ c, [selectionEvent g c.1; Elapse c.2]) changes.

(** An event that neither calls a selection handler nor lets time pass. *)
Definition notTimerEvent (e : event) : Prop :=
  match e with
  | onAngleRangeSelect _ | onSelectionChange _ | Elapse _ => False
  | _ => True
  end.

(** The requests the callbacks of a list of timers send. *)
Definition requestsOfTimers (firing : list (nat * timer)) : list request :=
  flat_map (λ it, if bool_decide (0 < length (selectedFiles it.2))%nat
                  then [analysisRequest (rendered it.2) (selectedFiles it.2)]
                  else []) firing.

(** The panel is in a legal render, every pending timer and every request
    sent so far is well formed. *)
Definition requestInvariant (w : world) : Prop :=
  legalKind (ui w) ∧
  Forall (λ it, wellFormedTimer it.2) (timers w) ∧
  Forall wellFormedRequest (fetched w).

(** The endpoint [fetchAnalysis] calls for an analysis type. *)
Definition endpointOfKind (kind : AnalysisKind) : endpoint :=
  match kind with
  | predictions => wav2vec2_batch
  | common_terms => whisper_batch
  | audio_features => audio_frequency_batch
  end.

(** * Properties *)

Local Open Scope nat_scope.
Local Open Scope list_scope.

(** ** Strings *)

Lemma startsWith_spec (s sub : string) :
  startsWith s sub = true ↔ ∃ post, s = sub +:+ post.
Proof.
  revert s; induction sub as [|c sub IH]; intros s; simpl.
  - destruct s; simpl; (split; [intros _; by eexists | done]).
  - destruct s as [|d s]; simpl.
    + split; [done | intros [post H]; discriminate H].
    + destruct (decide (c = d)) as [->|Hne].
      * rewrite IH. split; intros [post H]; exists post.
        -- by rewrite H.
        -- by injection H.
      * split; [done | intros [post H]; injection H as -> _; done].
Qed.

Lemma includes_spec (s sub : string) :
  includes s sub = true ↔ ∃ pre post, s = pre +:+ sub +:+ post.
Proof.
  induction s as [|d s IH]; cbn [includes]; rewrite orb_true_iff, startsWith_spec.
  - split.
    + intros [[post H]|H]; [by exists EmptyString, post | done].
    + intros (pre & post & H). left. destruct pre; [by exists post | discriminate H].
  - rewrite IH. split.
    + intros [[post H]|(pre & post & H)].
      * by exists EmptyString, post.
      * exists (String d pre), post. simpl. by rewrite H.
    + intros (pre & post & H). destruct pre as [|c pre]; simpl in H.
      * left. by exists post.
      * right. injection H as _ ->. by exists pre, post.
Qed.

Lemma includes_app (pre sub post : string) : includes (pre +:+ sub +:+ post) sub = true.
Proof. apply includes_spec. by exists pre, post. Qed.

(** ** Sorting *)

Lemma sort_Permutation (l : list string) : sort l ≡ₚ l.
Proof. apply merge_sort_Permutation. Qed.

Lemma sort_StronglySorted (l : list string) : StronglySorted String.le (sort l).
Proof. apply (StronglySorted_merge_sort String.le). Qed.

(** The sorted array depends on the elements only, not on their order. *)
Lemma sort_unique (l1 l2 : list string) : l1 ≡ₚ l2 → sort l1 = sort l2.
Proof.
  intros H. apply (StronglySorted_unique String.le); try apply sort_StronglySorted.
  by rewrite !sort_Permutation.
Qed.

Lemma sort_idemp (l : list string) : sort (sort l) = sort l.
Proof. apply sort_unique, sort_Permutation. Qed.

Lemma sort_nil_inv (l : list string) : sort l = [] → l = [].
Proof.
  intros H. apply Permutation_nil_r. rewrite <- H. symmetry. apply sort_Permutation.
Qed.

Lemma selectionKey_Permutation (l1 l2 : list string) :
  l1 ≡ₚ l2 → selectionKey l1 = selectionKey l2.
Proof. intros H. unfold selectionKey. by rewrite (sort_unique l1 l2). Qed.

Lemma selectionKey_sort (l : list string) : selectionKey (sort l) = selectionKey l.
Proof. unfold selectionKey. by rewrite sort_idemp. Qed.

(** ** The result slots *)

Lemma clearAnalysisResults_slots (p : panel) : slots (clearAnalysisResults p) = (None, None, None).
Proof. reflexivity. Qed.

Lemma populated_slots (p p' : panel) : slots p' = slots p → populated p' = populated p.
Proof. unfold populated. by intros ->. Qed.

Lemma populated_cleared (p : panel) : slots p = (None, None, None) → populated p = 0.
Proof. unfold populated. by intros ->. Qed.

(** A fetcher that resumes with a parsed body fills its slot and empties the
    other two. *)
Lemma resume_success (u : endpoint) (status : N) (text : string) (analysis : json) (p : panel) :
  ok status = true →
  slots (resume u (Resolved status text (inr analysis)) p) = only u (slotValue analysis).
Proof.
  intros Hok. destruct u; unfold resume, fetchFrequencyAnalysis_resume,
    fetchBatchPredictions_resume, fetchWhisperAnalysis_resume, awaitAnalysis;
    rewrite Hok; reflexivity.
Qed.

(** A fetcher that resumes in its [catch] empties its slot and leaves the
    other two. *)
Lemma resume_failure (u : endpoint) (r : response) (p : panel) :
  failed r = true → slots (resume u r p) = without u p.
Proof.
  intros He. destruct r as [e'|status text parsed]; simpl in He.
  - destruct u; reflexivity.
  - destruct u; unfold resume, fetchFrequencyAnalysis_resume,
      fetchBatchPredictions_resume, fetchWhisperAnalysis_resume, awaitAnalysis;
      destruct (ok status); try reflexivity; destruct parsed; try discriminate He; reflexivity.
Qed.

Lemma failure_or_success (r : response) :
  failed r = true ∨ ∃ status text analysis, ok status = true ∧ r = Resolved status text (inr analysis).
Proof.
  destruct r as [e|status text [e|analysis]]; simpl; eauto.
  - destruct (ok status); eauto.
  - destruct (ok status) eqn:Hok; eauto 10.
Qed.

Lemma resume_populated (u : endpoint) (r : response) (p : panel) :
  populated p ≤ 1 → populated (resume u r p) ≤ 1.
Proof.
  intros Hp. destruct (failure_or_success r) as [Hf|(status & text & analysis & Hok & ->)].
  - unfold populated in *. rewrite (resume_failure u r p Hf).
    revert Hp. unfold slots, without, occupied.
    destruct u; repeat case_match; simpl; lia.
  - unfold populated. rewrite (resume_success u status text analysis p Hok).
    unfold only, occupied. destruct u; repeat case_match; simpl; lia.
Qed.

(** What the operations do to the slots. *)

Lemma fetchAnalysis_slots (r : panel) (files : list string) (w : world) :
  slots (ui (fetchAnalysis r files w)) = slots (ui w).
Proof.
  unfold fetchAnalysis, fetchBatchPredictions, fetchWhisperAnalysis, fetchFrequencyAnalysis.
  destruct (analysisType r), files; reflexivity.
Qed.

Lemma handleAngleRangeSelect_slots (files : list string) (w : world) :
  slots (ui (handleAngleRangeSelect files w)) = slots (ui w).
Proof.
  unfold handleAngleRangeSelect. case_bool_decide; [|reflexivity].
  simpl. destruct (debounceRef w); reflexivity.
Qed.

Lemma handle2DSelectionChange_slots (files : list string) (w : world) :
  slots (ui (handle2DSelectionChange files w)) = slots (ui w).
Proof.
  unfold handle2DSelectionChange. case_bool_decide; [|reflexivity].
  simpl. destruct (debounceRef w); reflexivity.
Qed.

Lemma debounced_slots (t : timer) (w : world) :
  slots (ui (debounced t w)) = slots (ui w) ∨ slots (ui (debounced t w)) = (None, None, None).
Proof.
  unfold debounced. case_bool_decide; [left; apply fetchAnalysis_slots | right; reflexivity].
Qed.

Lemma debounced_populated (t : timer) (w : world) :
  populated (ui w) ≤ 1 → populated (ui (debounced t w)) ≤ 1.
Proof.
  intros Hp. destruct (debounced_slots t w) as [H|H].
  - by rewrite (populated_slots _ _ H).
  - rewrite (populated_cleared _ H). lia.
Qed.

Lemma firing_populated (firing : list (nat * timer)) (w : world) :
  populated (ui w) ≤ 1 → populated (ui (foldl (λ w it, debounced it.2 w) w firing)) ≤ 1.
Proof.
  revert w. induction firing as [|it firing IH]; intros w Hp; simpl; [done|].
  apply IH, debounced_populated, Hp.
Qed.

Lemma analysisTypeEffect_slots (p : panel) :
  slots (analysisTypeEffect p) = slots p ∨ slots (analysisTypeEffect p) = (None, None, None).
Proof.
  unfold analysisTypeEffect. case_bool_decide; [by left|].
  right. destruct (getAvailableAnalysisTypes (model p)); reflexivity.
Qed.

Lemma embeddingEffect_ui (w : world) : ui (embeddingEffect w) = ui w.
Proof. unfold embeddingEffect. by case_match. Qed.

Lemma propsChange_ui (m d : string) (fs : option (list string)) (w : world) :
  ui (propsChange m d fs w) =
  let p := withDataset d (withModel m (ui w)) in
  let p := match fs with Some files => withAvailableFiles files p | None => p end in
  if bool_decide (m ≠ model (ui w)) then analysisTypeEffect p else p.
Proof.
  unfold propsChange. cbv zeta.
  match goal with |- context [if ?c then embeddingEffect _ else _] => destruct c end;
    rewrite ?embeddingEffect_ui; case_bool_decide; destruct fs; reflexivity.
Qed.

Lemma step_populated (w : world) (e : event) :
  populated (ui w) ≤ 1 → populated (ui (step w e)) ≤ 1.
Proof.
  intros Hp. destruct e; simpl.
  - by rewrite (populated_slots _ _ (handleAngleRangeSelect_slots files w)).
  - by rewrite (populated_slots _ _ (handle2DSelectionChange_slots files w)).
  - case_bool_decide; [|done]. unfold populated. simpl. lia.
  - unfold handleReductionMethodChange. case_bool_decide; [rewrite embeddingEffect_ui|]; done.
  - unfold handle3DToggle. by repeat case_match.
  - unfold handleFetchEmbeddings. by repeat case_match.
  - rewrite propsChange_ui. cbv zeta. case_bool_decide.
    + match goal with |- context [analysisTypeEffect ?p] =>
        destruct (analysisTypeEffect_slots p) as [Hs|Hs] end.
      * rewrite (populated_slots _ _ Hs). by destruct files'.
      * rewrite (populated_cleared _ Hs). lia.
    + by destruct files'.
  - done.
  - unfold elapse. by apply firing_populated.
  - unfold respond. destruct (inflight w !! i); [|done]. simpl. by apply resume_populated.
Qed.

Lemma mount_populated (m d : string) (files : list string) (data : option json) (loading : bool) :
  populated (ui (mount m d files data loading)) = 0.
Proof.
  unfold mount. rewrite embeddingEffect_ui. simpl.
  destruct (analysisTypeEffect_slots (initialPanel m d files data loading)) as [H|H];
    by rewrite (populated_cleared _ H) || rewrite (populated_slots _ _ H).
Qed.

Lemma run_snoc (w : world) (evs : list event) (e : event) :
  run w (evs ++ [e]) = step (run w evs) e.
Proof. unfold run. by rewrite foldl_app. Qed.

Lemma run_populated (w : world) (evs : list event) :
  populated (ui w) ≤ 1 → populated (ui (run w evs)) ≤ 1.
Proof.
  intros Hp. induction evs as [|e evs IH] using rev_ind; [done|].
  rewrite run_snoc. by apply step_populated.
Qed.

(** C2. Of the three result slots (frequency analysis, prediction analysis,
    term analysis) at most one holds an analysis in every state the mounted
    panel can be in, whatever the events were.  A fetcher that resumes with
    a parsed body fills its own slot and empties the other two in one
    update, and the clearing operations (the clearing function, the timer
    callback of an empty selection, a change of the analysis type, a model
    change that makes the type illegal) leave all three empty. *)
Theorem result_slots_mutually_exclusive :
  (∀ m d files data loading evs,
     populated (ui (run (mount m d files data loading) evs)) ≤ 1) ∧
  (∀ w i q status text analysis,
     inflight w !! i = Some q → ok status = true →
     slots (ui (respond i (Resolved status text (inr analysis)) w))
     = only (url q) (slotValue analysis)) ∧
  (∀ p, slots (clearAnalysisResults p) = (None, None, None)) ∧
  (∀ t w, selectedFiles t = [] → slots (ui (debounced t w)) = (None, None, None)) ∧
  (∀ value w, slots (ui (handleAnalysisTypeChange value w)) = (None, None, None)) ∧
  (∀ p, analysisType p ∉ getAvailableAnalysisTypes (model p) →
        slots (analysisTypeEffect p) = (None, None, None)).
Proof.
  repeat split.
  - intros. apply run_populated. rewrite mount_populated. lia.
  - intros w i q status text analysis Hq Hok. unfold respond. rewrite Hq. simpl.
    by apply resume_success.
  - intros t w Ht. unfold debounced. rewrite Ht. reflexivity.
  - intros p Hp. unfold analysisTypeEffect. rewrite bool_decide_eq_false_2 by done.
    destruct (getAvailableAnalysisTypes (model p)); reflexivity.
Qed.

Lemma result_slots_mutually_exclusive_witness :
  slots (ui (respond 0 (Resolved 200 "{}" (inr (JObject [])))
               (run defaultMount [onSelectionChange ["a.wav"]; Elapse 300])))
  = (Some (JObject []), None, None).
Proof.
  apply (proj1 (proj2 result_slots_mutually_exclusive)
           (run defaultMount [onSelectionChange ["a.wav"]; Elapse 300]) 0
           {| url := audio_frequency_batch; filenames := ["a.wav"];
              body_model := Some "whisper-base"; body_dataset := Some "common-voice" |}
           200%N "{}" (JObject [])).
  - vm_compute. reflexivity.
  - reflexivity.
Defined.

(** ** The analysis-type resolver *)

Lemma getAvailableAnalysisTypes_nonempty (m : string) : getAvailableAnalysisTypes m ≠ [].
Proof. unfold getAvailableAnalysisTypes. repeat case_match; done. Qed.

Lemma analysisTypeEffect_model (p : panel) : model (analysisTypeEffect p) = model p.
Proof.
  unfold analysisTypeEffect. case_bool_decide; [done|].
  destruct (getAvailableAnalysisTypes (model p)); reflexivity.
Qed.

Lemma analysisTypeEffect_legal (p : panel) :
  analysisType (analysisTypeEffect p) ∈ getAvailableAnalysisTypes (model p).
Proof.
  unfold analysisTypeEffect. case_bool_decide as Hin; [done|].
  pose proof (getAvailableAnalysisTypes_nonempty (model p)) as Hne.
  destruct (getAvailableAnalysisTypes (model p)) as [|k ks]; [done|]. simpl. left.
Qed.

(** C6. The legal analysis kinds of a model: for the model identifier
    "wav2vec2" they are [predictions, audio-features]; for an identifier
    that contains "whisper" they are [common-terms, audio-features]; for
    any other identifier [audio-features]; the list is never empty.  After
    a change of the model to [m] the active kind is one of the legal kinds
    of [m]: it is kept when it is legal for [m], and otherwise it becomes
    the first legal kind and the three result slots are emptied. *)
Theorem analysis_kind_legal_after_model_change
    (w : world) (m d : string) (fs : option (list string)) :
  m ≠ model (ui w) →
  let legal := getAvailableAnalysisTypes m in
  let p := ui w in
  let p' := ui (propsChange m d fs w) in
  (m = "wav2vec2" → legal = [predictions; audio_features]) ∧
  ((∃ pre post, m = pre +:+ "whisper" +:+ post) → legal = [common_terms; audio_features]) ∧
  (m ≠ "wav2vec2" → ¬ (∃ pre post, m = pre +:+ "whisper" +:+ post) →
   legal = [audio_features]) ∧
  legal ≠ [] ∧
  model p' = m ∧
  analysisType p' ∈ legal ∧
  (analysisType p ∈ legal → analysisType p' = analysisType p ∧ slots p' = slots p) ∧
  (analysisType p ∉ legal →
   head legal = Some (analysisType p') ∧ slots p' = (None, None, None)).
Proof.
  intros Hm. cbv zeta.
  set (q := match fs with
            | Some files => withAvailableFiles files (withDataset d (withModel m (ui w)))
            | None => withDataset d (withModel m (ui w))
            end).
  assert (ui (propsChange m d fs w) = analysisTypeEffect q) as ->.
  { rewrite propsChange_ui. cbv zeta. by rewrite bool_decide_eq_true_2 by done. }
  assert (model q = m ∧ analysisType q = analysisType (ui w) ∧ slots q = slots (ui w))
    as (Hqm & Hqk & Hqs) by (subst q; by destruct fs).
  clearbody q.
  split_and!.
  - intros ->. reflexivity.
  - intros Hw. apply includes_spec in Hw. unfold getAvailableAnalysisTypes.
    rewrite Hw. case_bool_decide as Heq; [|done]. rewrite Heq in Hw. discriminate Hw.
  - intros Hne Hw. unfold getAvailableAnalysisTypes.
    rewrite bool_decide_eq_false_2 by done.
    destruct (includes m "whisper") eqn:Hi; [|done].
    apply includes_spec in Hi. done.
  - apply getAvailableAnalysisTypes_nonempty.
  - by rewrite analysisTypeEffect_model.
  - rewrite <- Hqm. apply analysisTypeEffect_legal.
  - intros Hin. unfold analysisTypeEffect.
    rewrite Hqm, Hqk, bool_decide_eq_true_2 by done. done.
  - intros Hin. unfold analysisTypeEffect.
    rewrite Hqm, Hqk, bool_decide_eq_false_2 by done.
    pose proof (getAvailableAnalysisTypes_nonempty m) as Hne.
    destruct (getAvailableAnalysisTypes m) as [|k ks]; [done|]. split; reflexivity.
Qed.

(** The scenario of a switch from "wav2vec2" with predictions active to
    "whisper-base": the kind becomes common-terms, the slots are empty. *)
Lemma analysis_kind_legal_after_model_change_witness :
  let w := run (mount "wav2vec2" "common-voice" [] None false)
               [onAnalysisTypeChange predictions] in
  let p' := ui (propsChange "whisper-base" "common-voice" None w) in
  "whisper-base" ≠ model (ui w) ∧
  analysisType (ui w) = predictions ∧
  analysisType p' = common_terms ∧ slots p' = (None, None, None).
Proof.
  intros w p'.
  assert ("whisper-base" ≠ model (ui w)) as Hm by (vm_compute; discriminate).
  pose proof (analysis_kind_legal_after_model_change w "whisper-base" "common-voice" None Hm)
    as (_ & _ & _ & _ & _ & _ & _ & Hforced).
  assert (analysisType (ui w) ∉ getAvailableAnalysisTypes "whisper-base") as Hillegal.
  { intros Hin.
    assert (bool_decide (analysisType (ui w) ∈ getAvailableAnalysisTypes "whisper-base") = true)
      as Hb by (by apply bool_decide_eq_true_2).
    vm_compute in Hb. discriminate Hb. }
  destruct (Hforced Hillegal) as [Hhead Hslots].
  split_and!; [exact Hm | reflexivity | | exact Hslots].
  change (head (getAvailableAnalysisTypes "whisper-base")) with (Some common_terms) in Hhead.
  apply (inj Some). symmetry. exact Hhead.
Defined.

(** ** Completion of a fetch *)

Lemma append_cons (x : Ascii.ascii) (a b : string) : String x a +:+ b = String x (a +:+ b).
Proof. reflexivity. Qed.

Lemma append_assoc (a b c : string) : (a +:+ b) +:+ c = a +:+ b +:+ c.
Proof. induction a as [|x a IH]; [done | by rewrite !append_cons, IH]. Qed.

Lemma append_nil_r (a : string) : a +:+ EmptyString = a.
Proof. induction a as [|x a IH]; [done | by rewrite append_cons, IH]. Qed.

Lemma awaitAnalysis_status (what : string) (status : N) (text : string) (parsed : thrown + json) :
  ok status = false →
  ∃ message, awaitAnalysis what (Resolved status text parsed) = inl (ErrorObject message) ∧
             includes message (pretty status) = true ∧ includes message text = true.
Proof.
  intros Hok. unfold awaitAnalysis. rewrite Hok. eexists. split; [reflexivity|]. split.
  - replace ("Failed to fetch " +:+ what +:+ ": " +:+ pretty status +:+ " - " +:+ text)
      with (("Failed to fetch " +:+ what +:+ ": ") +:+ pretty status +:+ " - " +:+ text)
      by (by rewrite !append_assoc).
    apply includes_app.
  - replace ("Failed to fetch " +:+ what +:+ ": " +:+ pretty status +:+ " - " +:+ text)
      with (("Failed to fetch " +:+ what +:+ ": " +:+ pretty status +:+ " - ") +:+ text +:+ EmptyString)
      by (by rewrite !append_assoc, append_nil_r).
    apply includes_app.
Qed.

Lemma resume_status (u : endpoint) (status : N) (text : string) (parsed : thrown + json)
    (p : panel) :
  ok status = false →
  ∃ message, analysisError (resume u (Resolved status text parsed) p) = Some message ∧
             includes message (pretty status) = true ∧ includes message text = true.
Proof.
  intros Hok. destruct u;
    unfold resume, fetchFrequencyAnalysis_resume, fetchBatchPredictions_resume,
      fetchWhisperAnalysis_resume.
  - destruct (awaitAnalysis_status "audio frequency analysis" status text parsed Hok)
      as (message & -> & H1 & H2). by exists message.
  - destruct (awaitAnalysis_status "batch predictions" status text parsed Hok)
      as (message & -> & H1 & H2). by exists message.
  - destruct (awaitAnalysis_status "whisper analysis" status text parsed Hok)
      as (message & -> & H1 & H2). by exists message.
Qed.

Lemma resume_loading (u : endpoint) (r : response) (p : panel) :
  isLoadingAnalysis (resume u r p) = false.
Proof. destruct u; reflexivity. Qed.

Lemma resume_outsideAnalysis (u : endpoint) (r : response) (p : panel) :
  outsideAnalysis (resume u r p) = outsideAnalysis p.
Proof.
  destruct u;
    unfold resume, fetchFrequencyAnalysis_resume, fetchBatchPredictions_resume,
      fetchWhisperAnalysis_resume; by case_match.
Qed.

Lemma respond_ui (w : world) (i : nat) (q : request) (r : response) :
  inflight w !! i = Some q → ui (respond i r w) = resume (url q) r (ui w).
Proof. intros Hq. unfold respond. by rewrite Hq. Qed.

(** C9. A failed analysis fetch leaves the selection as it is: when any of
    the three fetchers resumes in its [catch] (the fetch was rejected, the
    status was not a success, or the body did not parse), only the error
    message, the loading flag and the result slots change; the angle-range
    and the planar selection, every other field of the panel, the debounce
    timer and the request logs stay the same, so a new selection or a
    refresh can retry. *)
Theorem failed_fetch_keeps_selection (w : world) (i : nat) (q : request) (r : response) :
  inflight w !! i = Some q →
  failed r = true →
  let w' := respond i r w in
  selectedByAngle (ui w') = selectedByAngle (ui w) ∧
  selectedPoints2D (ui w') = selectedPoints2D (ui w) ∧
  outsideAnalysis (ui w') = outsideAnalysis (ui w) ∧
  timers w' = timers w ∧ debounceRef w' = debounceRef w ∧ clock w' = clock w ∧
  fetched w' = fetched w ∧ projections w' = projections w.
Proof.
  intros Hq _. cbv zeta.
  assert (outsideAnalysis (ui (respond i r w)) = outsideAnalysis (ui w)) as Hout.
  { rewrite (respond_ui w i q r Hq). apply resume_outsideAnalysis. }
  split_and!; try exact Hout.
  - unfold outsideAnalysis in Hout. by simplify_eq.
  - unfold outsideAnalysis in Hout. by simplify_eq.
  - unfold respond. by rewrite Hq.
  - unfold respond. by rewrite Hq.
  - unfold respond. by rewrite Hq.
  - unfold respond. by rewrite Hq.
  - unfold respond. by rewrite Hq.
Qed.

Lemma failed_fetch_keeps_selection_witness :
  let w := run defaultMount [onSelectionChange ["x.wav"]; Elapse 300] in
  selectedPoints2D (ui (respond 0 (Rejected (ErrorObject "Failed to fetch")) w)) = ["x.wav"].
Proof.
  intros w.
  assert (inflight w !! 0 =
          Some {| url := audio_frequency_batch; filenames := ["x.wav"];
                  body_model := Some "whisper-base";
                  body_dataset := Some "common-voice" |}) as Hq
    by (vm_compute; reflexivity).
  assert (failed (Rejected (ErrorObject "Failed to fetch")) = true) as Hf
    by reflexivity.
  rewrite (proj1 (proj2 (failed_fetch_keeps_selection w 0 _ _ Hq Hf))).
  vm_compute. reflexivity.
Defined.

(** C7, as the code has it.  When an analysis backend call comes back with
    a status that is not a success, the fetcher records an error message
    that contains the status code and the text of the response body, clears
    the loading flag, and empties its own result slot; the other two slots
    are left as they were, so all three are empty when the other two were
    empty before.  Whatever the response is, the fetcher resumes to a new
    panel state: nothing escapes its [catch]. *)
Theorem http_error_recorded
    (w : world) (i : nat) (q : request) (status : N) (text : string)
    (parsed : thrown + json) :
  inflight w !! i = Some q →
  ok status = false →
  let w' := respond i (Resolved status text parsed) w in
  (∃ message, analysisError (ui w') = Some message ∧
              includes message (pretty status) = true ∧
              includes message text = true) ∧
  isLoadingAnalysis (ui w') = false ∧
  targetSlot (url q) (ui w') = None ∧
  slots (ui w') = without (url q) (ui w) ∧
  (slots (ui w) = only (url q) (targetSlot (url q) (ui w)) →
   slots (ui w') = (None, None, None)).
Proof.
  intros Hq Hok. cbv zeta. rewrite (respond_ui w i q _ Hq).
  assert (failed (Resolved status text parsed) = true) as Hf by (simpl; by rewrite Hok).
  pose proof (resume_failure (url q) _ (ui w) Hf) as Hs.
  split_and!.
  - by apply resume_status.
  - apply resume_loading.
  - revert Hs. unfold slots, without. destruct (url q); cbn [targetSlot]; congruence.
  - exact Hs.
  - rewrite Hs. unfold slots, only, without. destruct (url q); congruence.
Qed.

(** The scenario of a dispatch for ["x.wav"] answered by HTTP 500 with the
    body "server error". *)
Lemma http_error_recorded_witness :
  let w := run defaultMount [onSelectionChange ["x.wav"]; Elapse 300] in
  let w' := respond 0 (Resolved 500 "server error" (inl (ErrorObject "Unexpected token"))) w in
  analysisError (ui w')
  = Some "Failed to fetch audio frequency analysis: 500 - server error" ∧
  slots (ui w') = (None, None, None).
Proof.
  intros w w'.
  assert (inflight w !! 0 =
          Some {| url := audio_frequency_batch; filenames := ["x.wav"];
                  body_model := Some "whisper-base";
                  body_dataset := Some "common-voice" |}) as Hq
    by (vm_compute; reflexivity).
  destruct (http_error_recorded w 0 _ 500%N "server error"
              (inl (ErrorObject "Unexpected token")) Hq eq_refl)
    as (_ & _ & _ & _ & Hempty).
  split; [vm_compute; reflexivity | apply Hempty; vm_compute; reflexivity].
Defined.

(** C7 as stated fails: a predictions fetch is still pending when the
    analysis type is switched to audio-features; its response fills the
    prediction slot; the audio-features fetch for the next selection then
    comes back with HTTP 500, and the prediction slot stays filled. *)
Lemma http_error_leaves_other_slot :
  let w := run (mount "wav2vec2" "common-voice" [] None false)
             [onAnalysisTypeChange predictions; onSelectionChange ["a.wav"]; Elapse 300;
              onAnalysisTypeChange audio_features; onSelectionChange ["x.wav"]; Elapse 300;
              Respond 0 (Resolved 200 "{}" (inr (JObject [])))] in
  let w' := respond 0 (Resolved 500 "server error" (inl (ErrorObject "Unexpected token"))) w in
  (url <$> inflight w) = [audio_frequency_batch] ∧
  (filenames <$> inflight w) = [["x.wav"]] ∧
  ok 500 = false ∧
  analysisError (ui w')
  = Some "Failed to fetch audio frequency analysis: 500 - server error" ∧
  slots (ui w') = (None, Some (JObject []), None) ∧
  slots (ui w') ≠ (None, None, None).
Proof. vm_compute. split_and!; done. Qed.

(** C1, as the code has it.  The fetchers keep no request sequence number:
    a response is committed when it arrives, whatever was dispatched or
    committed since its request left.  If dispatch A started before
    dispatch B, B's response arrives first and A's afterwards, both with a
    parsed body, then B's result is committed and A's late result replaces
    it: the slots end up holding A's analysis alone. *)
Theorem late_response_is_committed
    (w : world) (i j : nat) (qA qB : request) (statusA statusB : N)
    (textA textB : string) (a b : json) :
  inflight w !! i = Some qA →
  inflight w !! j = Some qB →
  i < j →
  ok statusA = true →
  ok statusB = true →
  let wB := respond j (Resolved statusB textB (inr b)) w in
  let wA := respond i (Resolved statusA textA (inr a)) wB in
  slots (ui wB) = only (url qB) (slotValue b) ∧
  inflight wB !! i = Some qA ∧
  slots (ui wA) = only (url qA) (slotValue a).
Proof.
  intros HA HB Hlt HokA HokB. cbv zeta.
  assert (inflight (respond j (Resolved statusB textB (inr b)) w) !! i = Some qA) as HA'.
  { unfold respond. rewrite HB. simpl. by rewrite list_lookup_delete_lt. }
  split_and!.
  - rewrite (respond_ui w j qB _ HB). by apply resume_success.
  - exact HA'.
  - rewrite (respond_ui _ i qA _ HA'). by apply resume_success.
Qed.

Lemma late_response_is_committed_witness :
  let w := run defaultMount [onSelectionChange ["a.wav"]; Elapse 300;
                             onSelectionChange ["b.wav"]; Elapse 300] in
  let wB := respond 1 (Resolved 200 EmptyString (inr (JString "analysis of b.wav"))) w in
  let wA := respond 0 (Resolved 200 EmptyString (inr (JString "analysis of a.wav"))) wB in
  slots (ui wA) = (Some (JString "analysis of a.wav"), None, None).
Proof.
  intros w wB wA.
  assert (inflight w !! 0 =
          Some {| url := audio_frequency_batch; filenames := ["a.wav"];
                  body_model := Some "whisper-base";
                  body_dataset := Some "common-voice" |}) as HA
    by (vm_compute; reflexivity).
  assert (inflight w !! 1 =
          Some {| url := audio_frequency_batch; filenames := ["b.wav"];
                  body_model := Some "whisper-base";
                  body_dataset := Some "common-voice" |}) as HB
    by (vm_compute; reflexivity).
  exact (proj2 (proj2 (late_response_is_committed w 0 1 _ _ 200%N 200%N EmptyString EmptyString
                         (JString "analysis of a.wav") (JString "analysis of b.wav")
                         HA HB ltac:(lia) eq_refl eq_refl))).
Defined.

(** C1 as stated fails: dispatch A (for ["a.wav"]) starts, dispatch B (for
    ["b.wav"]) starts before A's response is there, B's response arrives and
    is committed, then A's response arrives: it is not discarded, it
    replaces what B committed while the selection is still B's. *)
Lemma stale_response_overwrites :
  let A := JString "analysis of a.wav" in
  let B := JString "analysis of b.wav" in
  let w := run defaultMount [onSelectionChange ["a.wav"]; Elapse 300;
                             onSelectionChange ["b.wav"]; Elapse 300] in
  let wB := step w (Respond 1 (Resolved 200 EmptyString (inr B))) in
  let wA := step wB (Respond 0 (Resolved 200 EmptyString (inr A))) in
  (filenames <$> inflight w) = [["a.wav"]; ["b.wav"]] ∧
  slots (ui wB) = (Some B, None, None) ∧
  (filenames <$> inflight wB) = [["a.wav"]] ∧
  selectedPoints2D (ui wA) = ["b.wav"] ∧
  slots (ui wA) = (Some A, None, None) ∧
  ui wA ≠ ui wB.
Proof. vm_compute. split_and!; done. Qed.

(** ** The selection handlers *)

Lemma update_ui_id (w : world) (f : panel → panel) : f (ui w) = ui w → update_ui f w = w.
Proof. intros H. unfold update_ui. rewrite H. by destruct w. Qed.

Lemma setSelectedByAngle_id (p : panel) : setSelectedByAngle (selectedByAngle p) p = p.
Proof. by destruct p. Qed.

Lemma setSelectedPoints2D_id (p : panel) : setSelectedPoints2D (selectedPoints2D p) p = p.
Proof. by destruct p. Qed.

(** The handler does nothing when the stored array is sorted and has the
    key of the argument. *)
Lemma handleAngleRangeSelect_same (files : list string) (w : world) :
  sort (selectedByAngle (ui w)) = selectedByAngle (ui w) →
  selectionKey (selectedByAngle (ui w)) = selectionKey files →
  handleAngleRangeSelect files w = w.
Proof.
  intros Hsorted Hkey. unfold handleAngleRangeSelect. fold (selectionKey files).
  fold (selectionKey (selectedByAngle (ui w))).
  rewrite bool_decide_eq_false_2 by (by intros []).
  apply update_ui_id. rewrite Hsorted. apply setSelectedByAngle_id.
Qed.

Lemma handle2DSelectionChange_same (files : list string) (w : world) :
  sort (selectedPoints2D (ui w)) = selectedPoints2D (ui w) →
  selectionKey (selectedPoints2D (ui w)) = selectionKey files →
  handle2DSelectionChange files w = w.
Proof.
  intros Hsorted Hkey. unfold handle2DSelectionChange. fold (selectionKey files).
  fold (selectionKey (selectedPoints2D (ui w))).
  rewrite bool_decide_eq_false_2 by (by intros []).
  apply update_ui_id. rewrite Hsorted. apply setSelectedPoints2D_id.
Qed.

(** The handler on a selection with another key: the sorted argument is
    stored, the pending timer is cancelled, a timer of 300 is started. *)
Lemma handleAngleRangeSelect_changed (files : list string) (w : world) :
  selectionKey (selectedByAngle (ui w)) ≠ selectionKey files →
  handleAngleRangeSelect files w
  = setTimeout_debounceRef (sort files) (ui w) 300
      (cancelPending (update_ui (setSelectedByAngle (sort files)) w)).
Proof.
  intros Hkey. unfold handleAngleRangeSelect. fold (selectionKey files).
  fold (selectionKey (selectedByAngle (ui w))).
  rewrite bool_decide_eq_true_2 by done.
  unfold cancelPending. simpl. by destruct (debounceRef w).
Qed.

Lemma handle2DSelectionChange_changed (files : list string) (w : world) :
  selectionKey (selectedPoints2D (ui w)) ≠ selectionKey files →
  handle2DSelectionChange files w
  = setTimeout_debounceRef (sort files) (ui w) 300
      (cancelPending (update_ui (setSelectedPoints2D (sort files)) w)).
Proof.
  intros Hkey. unfold handle2DSelectionChange. fold (selectionKey files).
  fold (selectionKey (selectedPoints2D (ui w))).
  rewrite bool_decide_eq_true_2 by done.
  unfold cancelPending. simpl. by destruct (debounceRef w).
Qed.

Lemma cancelPending_ui (w : world) : ui (cancelPending w) = ui w.
Proof. unfold cancelPending. by destruct (debounceRef w). Qed.

Lemma setTimeout_debounceRef_ui (files : list string) (r : panel) (delay : nat) (w : world) :
  ui (setTimeout_debounceRef files r delay w) = ui w.
Proof. reflexivity. Qed.

(** After a call the stored array is sorted and has the key of the
    argument. *)
Lemma handleAngleRangeSelect_stored (files : list string) (w : world) :
  let w' := handleAngleRangeSelect files w in
  sort (selectedByAngle (ui w')) = selectedByAngle (ui w') ∧
  selectionKey (selectedByAngle (ui w')) = selectionKey files.
Proof.
  cbv zeta. destruct (decide (selectionKey (selectedByAngle (ui w)) = selectionKey files))
    as [Hkey|Hkey].
  - unfold handleAngleRangeSelect. fold (selectionKey files).
    fold (selectionKey (selectedByAngle (ui w))).
    rewrite bool_decide_eq_false_2 by (by intros []).
    cbn [ui update_ui selectedByAngle setSelectedByAngle].
    by rewrite sort_idemp, selectionKey_sort.
  - rewrite handleAngleRangeSelect_changed by done.
    rewrite setTimeout_debounceRef_ui, cancelPending_ui.
    cbn [ui update_ui selectedByAngle setSelectedByAngle].
    by rewrite sort_idemp, selectionKey_sort.
Qed.

Lemma handle2DSelectionChange_stored (files : list string) (w : world) :
  let w' := handle2DSelectionChange files w in
  sort (selectedPoints2D (ui w')) = selectedPoints2D (ui w') ∧
  selectionKey (selectedPoints2D (ui w')) = selectionKey files.
Proof.
  cbv zeta. destruct (decide (selectionKey (selectedPoints2D (ui w)) = selectionKey files))
    as [Hkey|Hkey].
  - unfold handle2DSelectionChange. fold (selectionKey files).
    fold (selectionKey (selectedPoints2D (ui w))).
    rewrite bool_decide_eq_false_2 by (by intros []).
    cbn [ui update_ui selectedPoints2D setSelectedPoints2D].
    by rewrite sort_idemp, selectionKey_sort.
  - rewrite handle2DSelectionChange_changed by done.
    rewrite setTimeout_debounceRef_ui, cancelPending_ui.
    cbn [ui update_ui selectedPoints2D setSelectedPoints2D].
    by rewrite sort_idemp, selectionKey_sort.
Qed.

(** Timer callbacks touch the analysis part of the panel only. *)
Lemma fetchAnalysis_outsideAnalysis (r : panel) (files : list string) (w : world) :
  outsideAnalysis (ui (fetchAnalysis r files w)) = outsideAnalysis (ui w).
Proof.
  unfold fetchAnalysis, fetchBatchPredictions, fetchWhisperAnalysis, fetchFrequencyAnalysis.
  destruct (analysisType r), files; reflexivity.
Qed.

Lemma debounced_outsideAnalysis (t : timer) (w : world) :
  outsideAnalysis (ui (debounced t w)) = outsideAnalysis (ui w).
Proof.
  unfold debounced. case_bool_decide; [apply fetchAnalysis_outsideAnalysis | reflexivity].
Qed.

Lemma firing_outsideAnalysis (firing : list (nat * timer)) (w : world) :
  outsideAnalysis (ui (foldl (λ w it, debounced it.2 w) w firing)) = outsideAnalysis (ui w).
Proof.
  revert w. induction firing as [|it firing IH]; intros w; simpl; [done|].
  by rewrite IH, debounced_outsideAnalysis.
Qed.

Lemma elapse_outsideAnalysis (dt : nat) (w : world) :
  outsideAnalysis (ui (elapse dt w)) = outsideAnalysis (ui w).
Proof. unfold elapse. by rewrite firing_outsideAnalysis. Qed.

Lemma outsideAnalysis_selections (p p' : panel) :
  outsideAnalysis p' = outsideAnalysis p →
  selectedByAngle p' = selectedByAngle p ∧ selectedPoints2D p' = selectedPoints2D p.
Proof. unfold outsideAnalysis. intros H. split; congruence. Qed.

(** C5. Two consecutive calls of a selection handler (angle-range or planar)
    with arguments that are equal up to order: the second call changes
    nothing.  The world after it is the world before it: the stored
    selection, the panel, the timer queue and the request logs are the same,
    so no fetch is scheduled; this holds right after the first call and
    after any time has passed since. *)
Theorem set_equal_selection_is_noop (w : world) (first second : list string) (dt : nat) :
  first ≡ₚ second →
  (let w1 := handleAngleRangeSelect first w in
   handleAngleRangeSelect second w1 = w1 ∧
   handleAngleRangeSelect second (elapse dt w1) = elapse dt w1) ∧
  (let w1 := handle2DSelectionChange first w in
   handle2DSelectionChange second w1 = w1 ∧
   handle2DSelectionChange second (elapse dt w1) = elapse dt w1).
Proof.
  intros Hperm. cbv zeta.
  pose proof (handleAngleRangeSelect_stored first w) as [Hs3 Hk3].
  pose proof (handle2DSelectionChange_stored first w) as [Hs2 Hk2].
  rewrite (selectionKey_Permutation first second Hperm) in Hk3, Hk2.
  split_and!.
  - by apply handleAngleRangeSelect_same.
  - destruct (outsideAnalysis_selections _ _
                (elapse_outsideAnalysis dt (handleAngleRangeSelect first w))) as [He _].
    apply handleAngleRangeSelect_same; by rewrite He.
  - by apply handle2DSelectionChange_same.
  - destruct (outsideAnalysis_selections _ _
                (elapse_outsideAnalysis dt (handle2DSelectionChange first w))) as [_ He].
    apply handle2DSelectionChange_same; by rewrite He.
Qed.

(** The scenario of ["a.wav", "b.wav"] followed 50 units later by
    ["b.wav", "a.wav"]. *)
Lemma set_equal_selection_is_noop_witness :
  let w1 := handle2DSelectionChange ["a.wav"; "b.wav"] defaultMount in
  handle2DSelectionChange ["b.wav"; "a.wav"] (elapse 50 w1) = elapse 50 w1.
Proof.
  intros w1.
  assert (["a.wav"; "b.wav"] ≡ₚ ["b.wav"; "a.wav"]) as Hperm by apply Permutation_swap.
  exact (proj2 (proj2 (set_equal_selection_is_noop defaultMount _ _ 50 Hperm))).
Defined.

(** ** The debounce timer *)

Lemma debounceInvariant_spec (w : world) :
  debounceInvariant w = true ↔
  timers w = [] ∨
  ∃ id t, timers w = [(id, t)] ∧ debounceRef w = Some id ∧ clock w < deadline t.
Proof.
  unfold debounceInvariant. destruct (timers w) as [|[id t] [|it rest]]; simpl.
  - split; [by left | done].
  - rewrite !andb_true_iff, !bool_decide_eq_true. split.
    + intros [[Hd _] Href]. right. by exists id, t.
    + intros [|(id' & t' & [= -> ->] & Href & Hd)]; done.
  - rewrite andb_false_r. split; [done|].
    intros [|(id' & t' & ? & _)]; done.
Qed.

Lemma debounceInvariant_ext (w w' : world) :
  timerView w' = timerView w → debounceInvariant w' = debounceInvariant w.
Proof. unfold timerView, debounceInvariant. intros [= -> -> ->]. reflexivity. Qed.

Lemma cancelPending_timers (w : world) :
  debounceInvariant w = true → timers (cancelPending w) = [].
Proof.
  intros Hinv. apply debounceInvariant_spec in Hinv as [Ht|(id & t & Ht & Href & _)].
  - unfold cancelPending. destruct (debounceRef w); simpl; by rewrite Ht.
  - unfold cancelPending. rewrite Href. simpl. rewrite Ht.
    rewrite filter_cons, decide_False; [done | simpl; by intros []].
Qed.

Lemma cancelPending_frame (w : world) :
  clock (cancelPending w) = clock w ∧ nextTimerId (cancelPending w) = nextTimerId w ∧
  debounceRef (cancelPending w) = debounceRef w ∧ inflight (cancelPending w) = inflight w ∧
  fetched (cancelPending w) = fetched w ∧ projections (cancelPending w) = projections w.
Proof. unfold cancelPending. destruct (debounceRef w) eqn:E; simpl; by rewrite ?E. Qed.

Lemma handler_changed (g : gesture) (files : list string) (w : world) :
  selectionKey (stored g (ui w)) ≠ selectionKey files →
  ∃ w0, handler g files w = setTimeout_debounceRef (sort files) (ui w) 300 (cancelPending w0) ∧
        stored g (ui w0) = sort files ∧ slots (ui w0) = slots (ui w) ∧
        closureView (ui w0) = closureView (ui w) ∧
        timerView w0 = timerView w ∧ nextTimerId w0 = nextTimerId w ∧
        inflight w0 = inflight w ∧ fetched w0 = fetched w ∧ projections w0 = projections w.
Proof.
  intros Hkey. destruct g; simpl in *.
  - exists (update_ui (setSelectedByAngle (sort files)) w).
    by rewrite handleAngleRangeSelect_changed.
  - exists (update_ui (setSelectedPoints2D (sort files)) w).
    by rewrite handle2DSelectionChange_changed.
Qed.

(** What a handler leaves behind when the selection has another key. *)
Lemma handler_changed_effect (g : gesture) (files : list string) (w : world) :
  debounceInvariant w = true →
  selectionKey (stored g (ui w)) ≠ selectionKey files →
  let w' := handler g files w in
  timers w' = [(nextTimerId w,
                {| deadline := clock w + 300; selectedFiles := sort files;
                   rendered := ui w |})] ∧
  debounceRef w' = Some (nextTimerId w) ∧ clock w' = clock w ∧
  inflight w' = inflight w ∧ fetched w' = fetched w ∧ projections w' = projections w ∧
  stored g (ui w') = sort files ∧ slots (ui w') = slots (ui w) ∧
  closureView (ui w') = closureView (ui w) ∧
  debounceInvariant w' = true.
Proof.
  intros Hinv Hkey. cbv zeta.
  destruct (handler_changed g files w Hkey)
    as (w0 & -> & Hst & Hsl & Hcl & Htv & Hn & Hi & Hf & Hp).
  assert (debounceInvariant w0 = true) as Hinv0 by (by rewrite (debounceInvariant_ext w w0)).
  pose proof (cancelPending_timers w0 Hinv0) as Hnil.
  destruct (cancelPending_frame w0) as (Hc & Hn' & _ & Hi' & Hf' & Hp').
  unfold timerView in Htv. injection Htv as Hclock _ _.
  assert (timers (setTimeout_debounceRef (sort files) (ui w) 300 (cancelPending w0))
          = [(nextTimerId w,
              {| deadline := clock w + 300; selectedFiles := sort files;
                 rendered := ui w |})]) as Htimers.
  { simpl. by rewrite Hnil, Hn', Hn, Hc, Hclock. }
  assert (debounceInvariant
            (setTimeout_debounceRef (sort files) (ui w) 300 (cancelPending w0)) = true)
    as Hinv'.
  { apply debounceInvariant_spec. right. eexists _, _. split; [exact Htimers|].
    simpl. split; [congruence | rewrite Hc, Hclock; lia]. }
  split_and!; [exact Htimers | .. | exact Hinv'];
    rewrite ?setTimeout_debounceRef_ui, ?cancelPending_ui; try done; simpl; congruence.
Qed.

(** What a handler leaves behind when the selection has the same key. *)
Lemma handler_same_effect (g : gesture) (files : list string) (w : world) :
  selectionKey (stored g (ui w)) = selectionKey files →
  let w' := handler g files w in
  timerView w' = timerView w ∧ nextTimerId w' = nextTimerId w ∧
  inflight w' = inflight w ∧ fetched w' = fetched w ∧ projections w' = projections w ∧
  stored g (ui w') = sort (stored g (ui w)) ∧ slots (ui w') = slots (ui w) ∧
  closureView (ui w') = closureView (ui w).
Proof.
  intros Hkey. destruct g; simpl in *.
  - unfold handleAngleRangeSelect. fold (selectionKey files).
    fold (selectionKey (selectedByAngle (ui w))).
    by rewrite bool_decide_eq_false_2 by (by intros []).
  - unfold handle2DSelectionChange. fold (selectionKey files).
    fold (selectionKey (selectedPoints2D (ui w))).
    by rewrite bool_decide_eq_false_2 by (by intros []).
Qed.

Lemma handler_debounceInvariant (g : gesture) (files : list string) (w : world) :
  debounceInvariant w = true → debounceInvariant (handler g files w) = true.
Proof.
  intros Hinv.
  destruct (decide (selectionKey (stored g (ui w)) = selectionKey files)) as [Hkey|Hkey].
  - destruct (handler_same_effect g files w Hkey) as (Htv & _).
    by rewrite (debounceInvariant_ext _ _ Htv).
  - by apply handler_changed_effect.
Qed.

Lemma fetchAnalysis_sends (r : panel) (files : list string) (w : world) :
  files ≠ [] →
  fetched (fetchAnalysis r files w) = fetched w ++ [analysisRequest r files] ∧
  inflight (fetchAnalysis r files w) = inflight w ++ [analysisRequest r files].
Proof.
  intros Hne. unfold fetchAnalysis, analysisRequest, fetchBatchPredictions,
    fetchWhisperAnalysis, fetchFrequencyAnalysis.
  destruct files; [done|]. by destruct (analysisType r).
Qed.

Lemma fetchAnalysis_frame (r : panel) (files : list string) (w : world) :
  timerView (fetchAnalysis r files w) = timerView w ∧
  nextTimerId (fetchAnalysis r files w) = nextTimerId w ∧
  projections (fetchAnalysis r files w) = projections w.
Proof.
  unfold fetchAnalysis, fetchBatchPredictions, fetchWhisperAnalysis, fetchFrequencyAnalysis.
  by destruct (analysisType r), files.
Qed.

Lemma debounced_frame (t : timer) (w : world) :
  timerView (debounced t w) = timerView w ∧
  nextTimerId (debounced t w) = nextTimerId w ∧
  projections (debounced t w) = projections w.
Proof. unfold debounced. case_bool_decide; [apply fetchAnalysis_frame | done]. Qed.

(** The callback of a non-empty selection sends one request. *)
Lemma debounced_sends (t : timer) (w : world) :
  selectedFiles t ≠ [] →
  fetched (debounced t w) = fetched w ++ [analysisRequest (rendered t) (selectedFiles t)] ∧
  inflight (debounced t w) = inflight w ++ [analysisRequest (rendered t) (selectedFiles t)].
Proof.
  intros Hne. unfold debounced. rewrite bool_decide_eq_true_2.
  - by apply fetchAnalysis_sends.
  - destruct (selectedFiles t); [done | simpl; lia].
Qed.

(** The callback of the empty selection clears the slots and sends
    nothing. *)
Lemma debounced_clears (t : timer) (w : world) :
  selectedFiles t = [] →
  debounced t w = update_ui clearAnalysisResults w.
Proof. intros Ht. unfold debounced. by rewrite Ht. Qed.

Lemma elapse_no_timer (dt : nat) (w : world) :
  timers w = [] → elapse dt w = atTime (clock w + dt) [] w.
Proof. intros Ht. unfold elapse. by rewrite Ht. Qed.

Lemma elapse_waiting (dt : nat) (w : world) (id : nat) (t : timer) :
  timers w = [(id, t)] → clock w + dt < deadline t →
  elapse dt w = atTime (clock w + dt) [(id, t)] w.
Proof.
  intros Ht Hlt. unfold elapse. rewrite Ht.
  rewrite !filter_cons, !filter_nil.
  repeat case_decide; unfold due in *; simpl in *; (done || lia).
Qed.

Lemma elapse_firing (dt : nat) (w : world) (id : nat) (t : timer) :
  timers w = [(id, t)] → deadline t ≤ clock w + dt →
  elapse dt w = debounced t (atTime (clock w + dt) [] w).
Proof.
  intros Ht Hle. unfold elapse. rewrite Ht.
  rewrite !filter_cons, !filter_nil.
  repeat case_decide; unfold due in *; simpl in *; (done || lia).
Qed.

Lemma elapse_debounceInvariant (dt : nat) (w : world) :
  debounceInvariant w = true → debounceInvariant (elapse dt w) = true.
Proof.
  intros Hinv. apply debounceInvariant_spec in Hinv as [Ht|(id & t & Ht & Href & Hd)].
  - rewrite elapse_no_timer by done. apply debounceInvariant_spec. by left.
  - destruct (decide (clock w + dt < deadline t)) as [Hlt|Hge].
    + rewrite (elapse_waiting dt w id t) by done. apply debounceInvariant_spec.
      right. by exists id, t.
    + rewrite (elapse_firing dt w id t) by (done || lia).
      destruct (debounced_frame t (atTime (clock w + dt) [] w)) as (Htv & _).
      rewrite (debounceInvariant_ext _ _ Htv). apply debounceInvariant_spec. by left.
Qed.

Lemma step_debounceInvariant (w : world) (e : event) :
  debounceInvariant w = true → debounceInvariant (step w e) = true.
Proof.
  intros Hinv. destruct e; simpl.
  - by apply (handler_debounceInvariant angleRange).
  - by apply (handler_debounceInvariant planar).
  - by case_bool_decide.
  - unfold handleReductionMethodChange, embeddingEffect. by repeat case_match.
  - unfold handle3DToggle. by repeat case_match.
  - unfold handleFetchEmbeddings. by repeat case_match.
  - unfold propsChange, embeddingEffect. cbv zeta. by repeat case_match.
  - done.
  - by apply elapse_debounceInvariant.
  - unfold respond. by case_match.
Qed.

Lemma mount_debounceInvariant (m d : string) (files : list string) (data : option json)
    (loading : bool) :
  debounceInvariant (mount m d files data loading) = true.
Proof. unfold mount, embeddingEffect. by case_match. Qed.

(** In every state the mounted panel can be in at most one debounce timer
    is live, it is the one [debounceRef] names, and it is not overdue. *)
Lemma run_debounceInvariant (w : world) (evs : list event) :
  debounceInvariant w = true → debounceInvariant (run w evs) = true.
Proof.
  intros Hinv. induction evs as [|e evs IH] using rev_ind; [done|].
  rewrite run_snoc. by apply step_debounceInvariant.
Qed.

Lemma sort_nil : sort [] = [].
Proof. reflexivity. Qed.

Lemma sort_nonempty (files : list string) : files ≠ [] → sort files ≠ [].
Proof. intros Hne Hs. by apply Hne, sort_nil_inv. Qed.

Lemma analysisRequest_closure (r r' : panel) (files : list string) :
  closureView r = closureView r' → analysisRequest r files = analysisRequest r' files.
Proof.
  unfold closureView, analysisRequest, requestDataset. intros [= -> -> ->]. reflexivity.
Qed.

(** A change followed by a wait shorter than the quiet period: the timer is
    still pending, nothing was fetched. *)
Lemma change_then_wait (g : gesture) (files : list string) (gap : nat) (w : world) :
  debounceInvariant w = true →
  selectionKey (stored g (ui w)) ≠ selectionKey files →
  gap < 300 →
  let w' := elapse gap (handler g files w) in
  debounceInvariant w' = true ∧
  ui w' = ui (handler g files w) ∧
  inflight w' = inflight w ∧ fetched w' = fetched w ∧
  stored g (ui w') = sort files ∧ slots (ui w') = slots (ui w) ∧
  closureView (ui w') = closureView (ui w).
Proof.
  intros Hinv Hkey Hgap. cbv zeta.
  destruct (handler_changed_effect g files w Hinv Hkey)
    as (Ht & Href & Hc & Hi & Hf & _ & Hst & Hsl & Hcl & Hinv').
  split; [by apply elapse_debounceInvariant|].
  rewrite (elapse_waiting gap _ _ _ Ht) by (simpl; lia).
  by split_and!.
Qed.

(** A change followed by a wait of the quiet period or longer: the timer
    has fired. *)
Lemma change_then_fire (g : gesture) (files : list string) (quiet : nat) (w : world) :
  debounceInvariant w = true →
  selectionKey (stored g (ui w)) ≠ selectionKey files →
  300 ≤ quiet →
  let w1 := handler g files w in
  elapse quiet w1
  = debounced {| deadline := clock w + 300; selectedFiles := sort files; rendered := ui w |}
      (atTime (clock w + quiet) [] w1).
Proof.
  intros Hinv Hkey Hq. cbv zeta.
  destruct (handler_changed_effect g files w Hinv Hkey) as (Ht & _ & Hc & _).
  rewrite (elapse_firing quiet _ _ _ Ht) by (simpl; lia). by rewrite Hc.
Qed.

Lemma burst_pending (g : gesture) (changes : list (list string * nat))
    (rest : list (list string)) (w : world) :
  debounceInvariant w = true →
  Forall (λ c, c.2 < 300) changes →
  changing (selectionKey (stored g (ui w))) (changes.*1 ++ rest) →
  let w' := burst g changes w in
  debounceInvariant w' = true ∧
  changing (selectionKey (stored g (ui w'))) rest ∧
  inflight w' = inflight w ∧ fetched w' = fetched w ∧
  slots (ui w') = slots (ui w) ∧ closureView (ui w') = closureView (ui w).
Proof.
  revert w. induction changes as [|[files gap] changes IH]; intros w Hinv Hgaps Hch; simpl.
  - done.
  - simpl in Hch. destruct Hch as [Hkey Hch]. inversion_clear Hgaps as [|?? Hgap Hgaps'].
    simpl in Hgap.
    destruct (change_then_wait g files gap w Hinv Hkey Hgap)
      as (Hinv' & _ & Hi & Hf & Hst & Hsl & Hcl).
    destruct (IH (elapse gap (handler g files w)) Hinv' Hgaps') as (? & ? & ? & ? & ? & ?).
    { by rewrite Hst, selectionKey_sort. }
    split_and!; congruence.
Qed.

(** The debounce: a burst of changes of one gesture, each with another key
    than the selection stored when it arrives and each followed by less
    than 300 units, then a last non-empty change followed by 300 units or
    more, sends exactly one request, for the (sorted) files of the last
    change, with the analysis type, model and dataset of the panel. *)
Lemma burst_single_fetch (g : gesture) (changes : list (list string * nat))
    (final : list string) (quiet : nat) (w : world) :
  debounceInvariant w = true →
  Forall (λ c, c.2 < 300) changes →
  changing (selectionKey (stored g (ui w))) (changes.*1 ++ [final]) →
  final ≠ [] →
  300 ≤ quiet →
  let w' := elapse quiet (handler g final (burst g changes w)) in
  fetched w' = fetched w ++ [analysisRequest (ui w) (sort final)] ∧
  inflight w' = inflight w ++ [analysisRequest (ui w) (sort final)] ∧
  stored g (ui w') = sort final ∧ timers w' = [].
Proof.
  intros Hinv Hgaps Hch Hne Hq. cbv zeta.
  destruct (burst_pending g changes [final] w Hinv Hgaps Hch)
    as (Hinv' & [Hkey _] & Hi & Hf & _ & Hcl).
  rewrite (change_then_fire g final quiet _ Hinv' Hkey Hq).
  set (t := {| deadline := _ |}). set (w1 := atTime _ _ _).
  destruct (debounced_sends t w1) as [Hsent Hpending]; [by apply sort_nonempty|].
  destruct (debounced_frame t w1) as ([= _ Htimers _] & _).
  destruct (handler_changed_effect g final _ Hinv' Hkey)
    as (_ & _ & _ & Hi' & Hf' & _ & Hst & _).
  split_and!.
  - rewrite Hsent. subst t w1. simpl. rewrite Hf', Hf.
    by rewrite (analysisRequest_closure _ (ui w)).
  - rewrite Hpending. subst t w1. simpl. rewrite Hi', Hi.
    by rewrite (analysisRequest_closure _ (ui w)).
  - destruct (outsideAnalysis_selections _ _ (debounced_outsideAnalysis t w1)) as [Ha Hp].
    subst w1. simpl in Ha, Hp. destruct g; simpl in *; congruence.
  - exact Htimers.
Qed.

(** C3 at an input where it fails.  Two selection changes 50 units apart,
    the first of the files "a.wav" and "b.wav", the second of the single
    file "a.wav,b.wav": the selections are distinct and not empty, one
    request is sent when the quiet period is over, and it carries the files
    of the first change, not those of the last one.  The handler compares
    the comma-joined sorted names, which are the same for both selections,
    so the second change neither replaces the stored selection nor restarts
    the timer. *)
Lemma burst_sends_earlier_selection :
  let w := run defaultMount
             [onSelectionChange ["a.wav"; "b.wav"]; Elapse 50;
              onSelectionChange ["a.wav,b.wav"]; Elapse 300] in
  ¬ ["a.wav"; "b.wav"] ≡ₚ ["a.wav,b.wav"] ∧
  (filenames <$> fetched w) = [["a.wav"; "b.wav"]] ∧
  (filenames <$> fetched w) ≠ [["a.wav,b.wav"]] ∧
  selectedPoints2D (ui w) = ["a.wav"; "b.wav"].
Proof.
  split; [intros Hp; apply Permutation_length in Hp; discriminate Hp|].
  vm_compute. split_and!; done.
Qed.

(** C10. The handlers compare selections by sorting the file names and
    joining them with a comma, so two different selections can compare
    equal: with ["a,b"] stored, the update to ["a", "b"] is taken for no
    change by either handler.  The world after the call is the world before
    it: the stored selection is not replaced and no timer is started, and
    the request sent when the pending timer fires is for the old
    selection. *)
Theorem comma_join_collision :
  ∃ old new : list string,
    ¬ old ≡ₚ new ∧ (∃ x, x ∈ new ∧ x ∉ old) ∧
    selectionKey old = selectionKey new ∧
    ∀ g : gesture,
      let w := handler g old defaultMount in
      stored g (ui w) = old ∧
      handler g new w = w ∧
      stored g (ui (handler g new w)) = old ∧
      timers (handler g new w) = timers w ∧
      (filenames <$> fetched (elapse 300 (handler g new w))) = [old].
Proof.
  exists ["a,b"], ["a"; "b"]. split_and!.
  - intros Hp. apply Permutation_length in Hp. discriminate Hp.
  - exists "a". split; [by left|]. intros Hin. apply list_elem_of_singleton in Hin.
    discriminate Hin.
  - vm_compute. reflexivity.
  - intros g. destruct g; vm_compute; split_and!; reflexivity.
Qed.

(** C4, as the code has it.  When a selection update replaces the stored
    selection by the empty one (the stored selection has another key than
    the empty selection), no backend call is made, but the clearing is
    debounced like a fetch: the handler cancels the pending timer and starts
    a new timer of 300 units, the three result slots stay as they are while
    it is pending, and they are all cleared when it fires. *)
Theorem empty_selection_clears_when_timer_fires
    (g : gesture) (w : world) (early late : nat) :
  debounceInvariant w = true →
  selectionKey (stored g (ui w)) ≠ selectionKey [] →
  early < 300 →
  300 ≤ late →
  let w' := handler g [] w in
  stored g (ui w') = [] ∧
  slots (ui w') = slots (ui w) ∧
  inflight w' = inflight w ∧ fetched w' = fetched w ∧
  timers w' = [(nextTimerId w,
                {| deadline := clock w + 300; selectedFiles := []; rendered := ui w |})] ∧
  slots (ui (elapse early w')) = slots (ui w) ∧
  slots (ui (elapse late w')) = (None, None, None) ∧
  inflight (elapse late w') = inflight w ∧ fetched (elapse late w') = fetched w ∧
  timers (elapse late w') = [].
Proof.
  intros Hinv Hkey Hearly Hlate. cbv zeta.
  destruct (handler_changed_effect g [] w Hinv Hkey)
    as (Ht & _ & _ & Hi & Hf & _ & Hst & Hsl & _).
  destruct (change_then_wait g [] early w Hinv Hkey Hearly) as (_ & _ & _ & _ & _ & Hsl' & _).
  rewrite (change_then_fire g [] late w Hinv Hkey Hlate).
  rewrite sort_nil in *. rewrite debounced_clears by done.
  by split_and!.
Qed.

Lemma empty_selection_clears_when_timer_fires_witness :
  let w := run defaultMount [onSelectionChange ["a.wav"]; Elapse 300;
                             Respond 0 (Resolved 200 "{}" (inr (JObject [])))] in
  slots (ui (elapse 299 (handler planar [] w))) = slots (ui w) ∧
  slots (ui (elapse 300 (handler planar [] w))) = (None, None, None).
Proof.
  intros w.
  assert (debounceInvariant w = true) as Hinv by (vm_compute; reflexivity).
  assert (selectionKey (stored planar (ui w)) ≠ selectionKey []) as Hkey
    by (vm_compute; discriminate).
  destruct (empty_selection_clears_when_timer_fires planar w 299 300 Hinv Hkey
              ltac:(lia) ltac:(lia)) as (_ & _ & _ & _ & _ & Hearly & Hlate & _).
  exact (conj Hearly Hlate).
Defined.

(** C4 as stated fails: with an analysis in a slot and ["a.wav"] selected,
    the update to the empty selection leaves the slot filled when the
    handler returns, and a debounce timer is pending. *)
Lemma empty_selection_not_cleared_at_once :
  let w := run defaultMount [onSelectionChange ["a.wav"]; Elapse 300;
                             Respond 0 (Resolved 200 "{}" (inr (JObject [])))] in
  let w' := step w (onSelectionChange []) in
  selectedPoints2D (ui w) = ["a.wav"] ∧
  selectedPoints2D (ui w') = [] ∧
  slots (ui w') = (Some (JObject []), None, None) ∧
  slots (ui w') ≠ (None, None, None) ∧
  (deadline <$> (timers w').*2) = [clock w' + 300] ∧
  timers w' ≠ [].
Proof. vm_compute. split_and!; done. Qed.

(** ** The embedding fetch trigger *)

Lemma truthy_true (s : string) : s ≠ EmptyString → truthy s = true.
Proof. intros H. unfold truthy. by apply bool_decide_eq_true_2. Qed.

Lemma nonempty_length {A} (l : list A) : l ≠ [] → bool_decide (0 < length l) = true.
Proof. intros H. apply bool_decide_eq_true_2. destruct l; [done | simpl; lia]. Qed.

Lemma embeddingEffect_requests (w : world) :
  availableFiles (ui w) ≠ [] → model (ui w) ≠ EmptyString → dataset (ui w) ≠ EmptyString →
  projections (embeddingEffect w)
  = projections w ++ [projectionOf (ui w) (reductionMethod (ui w)) (is3D (ui w))].
Proof.
  intros Hf Hm Hd. unfold embeddingEffect.
  by rewrite nonempty_length, !truthy_true by done.
Qed.

(** C8, as the code has it.  When the model, the dataset, the file
    universe or the reduction method changes while the file universe is not
    empty and both model and dataset are set, a projection request for all
    files is issued in the same step, with the reduction method and the
    dimensionality (2 or 3) of the panel.  When the dimensionality is
    toggled, a request for all files at the new dimensionality is issued in
    the same step if embedding data is present and the file universe is not
    empty; without embedding data the toggle issues no request. *)
Theorem embedding_projection_requested (w : world) :
  (∀ m d fs,
     m ≠ model (ui w) ∨ d ≠ dataset (ui w) ∨ is_Some fs →
     default (availableFiles (ui w)) fs ≠ [] → m ≠ EmptyString → d ≠ EmptyString →
     projections (propsChange m d fs w)
     = projections w ++
       [projectionOf (withProps m d fs (ui w)) (reductionMethod (ui w)) (is3D (ui w))]) ∧
  (∀ method,
     method ≠ reductionMethod (ui w) →
     availableFiles (ui w) ≠ [] → model (ui w) ≠ EmptyString → dataset (ui w) ≠ EmptyString →
     projections (handleReductionMethodChange method w)
     = projections w ++ [projectionOf (ui w) method (is3D (ui w))]) ∧
  (∀ checked,
     availableFiles (ui w) ≠ [] → is_Some (embeddingData (ui w)) →
     projections (handle3DToggle checked w)
     = projections w ++ [projectionOf (ui w) (reductionMethod (ui w)) checked]) ∧
  (∀ checked,
     embeddingData (ui w) = None →
     projections (handle3DToggle checked w) = projections w).
Proof.
  split_and!.
  - intros m d fs Hchange Hfiles Hm Hd. unfold propsChange. cbv zeta.
    assert (bool_decide (m ≠ model (ui w)) || bool_decide (d ≠ dataset (ui w))
            || bool_decide (is_Some fs) = true) as ->.
    { rewrite !orb_true_iff, !bool_decide_eq_true. tauto. }
    set (w1 := match fs with Some files => _ | None => _ end).
    set (w2 := if bool_decide (m ≠ model (ui w)) then update_ui analysisTypeEffect w1 else w1).
    assert (Hfields : (model (ui w2), dataset (ui w2), availableFiles (ui w2),
                                reductionMethod (ui w2), is3D (ui w2))
                               = (m, d, default (availableFiles (ui w)) fs,
                                  reductionMethod (ui w), is3D (ui w))).
    { subst w2 w1. case_bool_decide; destruct fs; simpl; unfold analysisTypeEffect;
        repeat case_match; reflexivity. }
    assert (projections w2 = projections w) as Hp.
    { subst w2 w1. case_bool_decide; by destruct fs. }
    injection Hfields as H1 H2 H3 H4 H5.
    rewrite embeddingEffect_requests by congruence.
    rewrite Hp. unfold projectionOf, withProps. rewrite H1, H2, H3, H4, H5.
    by destruct fs.
  - intros method Hchange Hfiles Hm Hd. unfold handleReductionMethodChange.
    rewrite bool_decide_eq_true_2 by done.
    by rewrite embeddingEffect_requests.
  - intros checked Hfiles Hdata. unfold handle3DToggle.
    by rewrite bool_decide_eq_true_2, nonempty_length by done.
  - intros checked Hdata. unfold handle3DToggle. rewrite Hdata.
    rewrite bool_decide_eq_false_2; [done | by intros [? ?]].
Qed.

Lemma embedding_projection_requested_witness :
  let w := run (mount "whisper-base" "common-voice" ["a.wav"; "b.wav"] None false)
               [ContextChange (Some (JObject [])) false] in
  projections (handle3DToggle true w)
  = [projectionOf (ui w) "pca" false; projectionOf (ui w) "pca" true].
Proof.
  intros w.
  assert (availableFiles (ui w) ≠ []) as Hfiles by (vm_compute; discriminate).
  assert (is_Some (embeddingData (ui w))) as Hdata by (vm_compute; by eexists).
  exact (proj1 (proj2 (proj2 (embedding_projection_requested w))) true Hfiles Hdata).
Defined.

(** C8 as stated fails: the panel is mounted with two files, a model and a
    dataset; the projection request of the mount has ended without data;
    the dimensionality is switched to 3D, and no request is issued. *)
Lemma dimensionality_change_without_request :
  let w := run (mount "whisper-base" "common-voice" ["a.wav"; "b.wav"] None false)
               [ContextChange None true; ContextChange None false] in
  let w' := step w (on3DToggle true) in
  availableFiles (ui w) = ["a.wav"; "b.wav"] ∧
  model (ui w) = "whisper-base" ∧ dataset (ui w) = "common-voice" ∧
  is3D (ui w) = false ∧ is3D (ui w') = true ∧
  projections w' = projections w ∧
  (nComponents <$> projections w') = [2].
Proof. vm_compute. split_and!; reflexivity. Qed.

(** ** The analysis type stays legal *)

Lemma outsideAnalysis_closureView (p p' : panel) :
  outsideAnalysis p' = outsideAnalysis p → closureView p' = closureView p.
Proof. unfold outsideAnalysis, closureView. intros H. congruence. Qed.

Lemma legalKind_closureView (p p' : panel) :
  closureView p' = closureView p → legalKind p → legalKind p'.
Proof. unfold closureView, legalKind. intros [= -> -> _]. done. Qed.

Lemma handler_closureView (g : gesture) (files : list string) (w : world) :
  closureView (ui (handler g files w)) = closureView (ui w).
Proof.
  destruct (decide (selectionKey (stored g (ui w)) = selectionKey files)) as [Hkey|Hkey].
  - by destruct (handler_same_effect g files w Hkey) as (_ & _ & _ & _ & _ & _ & _ & ?).
  - destruct (handler_changed g files w Hkey) as (w0 & -> & _ & _ & Hcl & _).
    by rewrite setTimeout_debounceRef_ui, cancelPending_ui.
Qed.

Lemma selectItems_legal (m : string) (k : AnalysisKind) :
  k ∈ selectItems m → k ∈ getAvailableAnalysisTypes m.
Proof.
  unfold selectItems, getAvailableAnalysisTypes. case_bool_decide as Hm.
  - subst m. by change (includes "wav2vec2" "whisper") with false.
  - by destruct (includes m "whisper").
Qed.

Lemma step_legalKind (w : world) (e : event) :
  legalKind (ui w) → legalKind (ui (step w e)).
Proof.
  intros Hlegal. destruct e; simpl.
  - apply (legalKind_closureView (ui w)); [apply (handler_closureView angleRange) | done].
  - apply (legalKind_closureView (ui w)); [apply (handler_closureView planar) | done].
  - case_bool_decide as Hin; [|done]. by apply selectItems_legal.
  - unfold handleReductionMethodChange.
    case_bool_decide; rewrite ?embeddingEffect_ui; exact Hlegal.
  - unfold handle3DToggle. repeat case_match; exact Hlegal.
  - unfold handleFetchEmbeddings. repeat case_match; exact Hlegal.
  - rewrite propsChange_ui. cbv zeta. case_bool_decide as Hm.
    + unfold legalKind. rewrite analysisTypeEffect_model. apply analysisTypeEffect_legal.
    + assert (model' = model (ui w)) as -> by (by destruct (decide (model' = model (ui w)))).
      by destruct files'.
  - exact Hlegal.
  - apply (legalKind_closureView (ui w)); [|done].
    apply outsideAnalysis_closureView, elapse_outsideAnalysis.
  - unfold respond. destruct (inflight w !! i); [|done].
    apply (legalKind_closureView (ui w)); [|done].
    apply outsideAnalysis_closureView, resume_outsideAnalysis.
Qed.

(** In every state the mounted panel can be in, the active analysis type is
    legal for the model. *)
Lemma run_legalKind (m d : string) (files : list string) (data : option json)
    (loading : bool) (evs : list event) :
  legalKind (ui (run (mount m d files data loading) evs)).
Proof.
  induction evs as [|e evs IH] using rev_ind.
  - unfold run, mount. simpl. rewrite embeddingEffect_ui. simpl.
    unfold legalKind. rewrite analysisTypeEffect_model. apply analysisTypeEffect_legal.
  - rewrite run_snoc. by apply step_legalKind.
Qed.

(** ** Selections of plain file names

    For file names that are not empty and have no comma, the comparison of
    the handlers is exact: two selections have the same key only if they
    have the same files. *)

Lemma comma_cons (s : string) : "," +:+ s = String "," s.
Proof. reflexivity. Qed.

Lemma commaFree_cons (c : ascii) (s : string) :
  commaFree (String c s) = true ↔ c ≠ ","%char ∧ commaFree s = true.
Proof.
  simpl. rewrite andb_true_iff, negb_true_iff, bool_decide_eq_false. done.
Qed.

Lemma comma_split (x y r1 r2 : string) :
  commaFree x = true → commaFree y = true →
  x +:+ String "," r1 = y +:+ String "," r2 → x = y ∧ r1 = r2.
Proof.
  revert y. induction x as [|a x IH]; intros y Hx Hy Heq.
  - destruct y as [|c y]; [by injection Heq|].
    apply commaFree_cons in Hy as [Hc _]. rewrite append_cons in Heq.
    injection Heq as Hc' _. by rewrite <- Hc' in Hc.
  - apply commaFree_cons in Hx as [Ha Hx]. rewrite append_cons in Heq.
    destruct y as [|c y].
    + injection Heq as Ha' _. done.
    + apply commaFree_cons in Hy as [_ Hy]. rewrite append_cons in Heq.
      injection Heq as -> Heq. destruct (IH y Hx Hy Heq) as [-> ->]. done.
Qed.

Lemma comma_absent (x y r : string) :
  commaFree x = true → x ≠ y +:+ String "," r.
Proof.
  revert x. induction y as [|c y IH]; intros x Hx ->.
  - by apply commaFree_cons in Hx as [Hc _].
  - rewrite append_cons in Hx. apply commaFree_cons in Hx as [_ Hx]. by apply (IH _ Hx).
Qed.

Lemma join_cons_cons (x y : string) (l : list string) :
  join "," (x :: y :: l) = x +:+ String "," (join "," (y :: l)).
Proof. reflexivity. Qed.

Lemma join_plain_nonempty (x : string) (l : list string) :
  plain x → join "," (x :: l) ≠ EmptyString.
Proof.
  intros [Hx _]. destruct l as [|y l]; [done|]. rewrite join_cons_cons.
  destruct x; [done|]. by rewrite append_cons.
Qed.

Lemma join_plain_inj (l1 l2 : list string) :
  Forall plain l1 → Forall plain l2 → join "," l1 = join "," l2 → l1 = l2.
Proof.
  revert l2. induction l1 as [|x l1 IH]; intros l2 H1 H2 Heq.
  - destruct l2 as [|y l2]; [done|]. inversion_clear H2 as [|?? Hy _].
    symmetry in Heq. by apply join_plain_nonempty in Heq.
  - inversion_clear H1 as [|?? Hx H1']. destruct l2 as [|y l2].
    + by apply join_plain_nonempty in Heq.
    + inversion_clear H2 as [|?? Hy H2']. destruct Hx as [_ Hx], Hy as [_ Hy].
      destruct l1 as [|x' l1], l2 as [|y' l2].
      * simpl in Heq. by subst.
      * rewrite join_cons_cons in Heq. simpl in Heq. by apply comma_absent in Heq.
      * rewrite join_cons_cons in Heq. simpl in Heq. symmetry in Heq.
        by apply comma_absent in Heq.
      * rewrite !join_cons_cons in Heq.
        destruct (comma_split _ _ _ _ Hx Hy Heq) as [-> Hrest].
        f_equal. by apply IH.
Qed.

Lemma selectionKey_plain_inj (l1 l2 : list string) :
  Forall plain l1 → Forall plain l2 → selectionKey l1 = selectionKey l2 → l1 ≡ₚ l2.
Proof.
  intros H1 H2 Heq. unfold selectionKey in Heq.
  apply join_plain_inj in Heq.
  - by rewrite <- (sort_Permutation l1), Heq, sort_Permutation.
  - by rewrite sort_Permutation.
  - by rewrite sort_Permutation.
Qed.

Lemma differing_changing (current : list string) (selections : list (list string)) :
  Forall plain current → Forall (Forall plain) selections →
  differing current selections → changing (selectionKey current) selections.
Proof.
  revert current. induction selections as [|files rest IH]; intros current Hc Hs Hd; [done|].
  inversion_clear Hs as [|?? Hf Hrest]. destruct Hd as [Hne Hd]. split.
  - intros Hkey. by apply Hne, selectionKey_plain_inj.
  - by apply IH.
Qed.

(** The debounce on plain file names: in a burst of changes of one gesture,
    each with other files than the one before and each less than 300 units
    after the one before, followed by 300 units of quiet, exactly one
    request is sent, and it carries the files of the last change. *)
Lemma burst_single_fetch_plain (g : gesture) (changes : list (list string * nat))
    (final : list string) (quiet : nat) (w : world) :
  debounceInvariant w = true →
  Forall (λ c, c.2 < 300) changes →
  Forall plain (stored g (ui w)) →
  Forall (Forall plain) (changes.*1 ++ [final]) →
  differing (stored g (ui w)) (changes.*1 ++ [final]) →
  final ≠ [] →
  300 ≤ quiet →
  let w' := elapse quiet (handler g final (burst g changes w)) in
  ∃ q, fetched w' = fetched w ++ [q] ∧ filenames q ≡ₚ final ∧
       q = analysisRequest (ui w) (sort final).
Proof.
  intros Hinv Hgaps Hst Hplain Hdiff Hne Hq. cbv zeta.
  destruct (burst_single_fetch g changes final quiet w Hinv Hgaps
              (differing_changing _ _ Hst Hplain Hdiff) Hne Hq) as (Hf & _).
  eexists. split; [exact Hf|]. split; [|done].
  unfold analysisRequest. destruct (analysisType (ui w)); apply sort_Permutation.
Qed.

(** * Further properties of the panel *)

(** ** The analysis types on offer *)

Lemma getAvailableAnalysisTypes_cases (m : string) :
  (m = "wav2vec2" ∧ includes m "whisper" = false ∧
   getAvailableAnalysisTypes m = [predictions; audio_features]) ∨
  (m ≠ "wav2vec2" ∧ includes m "whisper" = true ∧
   getAvailableAnalysisTypes m = [common_terms; audio_features]) ∨
  (m ≠ "wav2vec2" ∧ includes m "whisper" = false ∧
   getAvailableAnalysisTypes m = [audio_features]).
Proof.
  unfold getAvailableAnalysisTypes. case_bool_decide as Hm.
  - left. subst m. by change (includes "wav2vec2" "whisper") with false.
  - right. destruct (includes m "whisper"); [left | right]; done.
Qed.

(** A kind is not in a list of other kinds. *)
Ltac absurd_kind H :=
  repeat (apply elem_of_cons in H as [H|H]; [discriminate H|]);
  by apply elem_of_nil in H.

Lemma legal_predictions (m : string) :
  predictions ∈ getAvailableAnalysisTypes m → m = "wav2vec2".
Proof.
  destruct (getAvailableAnalysisTypes_cases m) as [(? & _)|[(_ & _ & ->)|(_ & _ & ->)]];
    [done | |]; intros H; absurd_kind H.
Qed.

Lemma legal_common_terms (m : string) :
  common_terms ∈ getAvailableAnalysisTypes m → includes m "whisper" = true.
Proof.
  destruct (getAvailableAnalysisTypes_cases m) as [(_ & _ & ->)|[(_ & ? & _)|(_ & _ & ->)]];
    [|done|]; intros H; absurd_kind H.
Qed.

(** X1. The analysis-type select offers exactly the kinds the resolver
    allows for the model, in the same order; audio-features is offered for
    every model, predictions and common-terms are never offered together,
    and no kind is offered twice. *)
Theorem select_offers_the_legal_kinds (m : string) :
  selectItems m = getAvailableAnalysisTypes m ∧
  audio_features ∈ getAvailableAnalysisTypes m ∧
  ¬ (predictions ∈ getAvailableAnalysisTypes m ∧
     common_terms ∈ getAvailableAnalysisTypes m) ∧
  NoDup (getAvailableAnalysisTypes m).
Proof.
  split_and!.
  - unfold selectItems.
    destruct (getAvailableAnalysisTypes_cases m) as [(Hm & Hw & ->)|[(Hm & Hw & ->)|(Hm & Hw & ->)]];
      rewrite Hw; [by rewrite bool_decide_eq_true_2 | by rewrite bool_decide_eq_false_2 ..].
  - destruct (getAvailableAnalysisTypes_cases m) as [(_ & _ & ->)|[(_ & _ & ->)|(_ & _ & ->)]];
      rewrite ?elem_of_cons; auto.
  - intros [Hp Hc]. apply legal_predictions in Hp. apply legal_common_terms in Hc.
    subst m. discriminate Hc.
  - destruct (getAvailableAnalysisTypes_cases m) as [(_ & _ & ->)|[(_ & _ & ->)|(_ & _ & ->)]];
      repeat (apply NoDup_cons; split; [intros H; absurd_kind H|]);
      by apply NoDup_nil.
Qed.

(** X2. In every state the mounted panel can reach, the active analysis
    type is one the current model allows: predictions is active only for
    the model "wav2vec2", common-terms only for a model whose name contains
    "whisper". *)
Theorem analysis_kind_always_legal
    (m d : string) (files : list string) (data : option json) (loading : bool)
    (evs : list event) :
  let p := ui (run (mount m d files data loading) evs) in
  analysisType p ∈ getAvailableAnalysisTypes (model p) ∧
  (analysisType p = predictions → model p = "wav2vec2") ∧
  (analysisType p = common_terms → includes (model p) "whisper" = true).
Proof.
  cbv zeta. pose proof (run_legalKind m d files data loading evs) as Hlegal.
  unfold legalKind in Hlegal. split_and!; [done | |].
  - intros Hk. rewrite Hk in Hlegal. by apply legal_predictions.
  - intros Hk. rewrite Hk in Hlegal. by apply legal_common_terms.
Qed.

Lemma analysis_kind_always_legal_witness :
  includes
    (model (ui (run (mount "whisper-base" "common-voice" [] None false)
                  [onAnalysisTypeChange common_terms; onAnalysisTypeChange predictions])))
    "whisper" = true.
Proof.
  apply (analysis_kind_always_legal "whisper-base" "common-voice" [] None false
           [onAnalysisTypeChange common_terms; onAnalysisTypeChange predictions]).
  vm_compute. reflexivity.
Defined.

(** X3. In every state the mounted panel can reach, at most one debounce
    timer is live; a live timer is the one [debounceRef] holds, and its
    deadline is still ahead. *)
Theorem at_most_one_debounce_timer
    (m d : string) (files : list string) (data : option json) (loading : bool)
    (evs : list event) :
  let w := run (mount m d files data loading) evs in
  length (timers w) ≤ 1 ∧
  ∀ id t, (id, t) ∈ timers w → debounceRef w = Some id ∧ clock w < deadline t.
Proof.
  cbv zeta.
  pose proof (run_debounceInvariant _ evs (mount_debounceInvariant m d files data loading))
    as Hinv.
  apply debounceInvariant_spec in Hinv as [->|(id & t & -> & Href & Hd)].
  - split; [simpl; lia|]. intros id t Hin. by apply elem_of_nil in Hin.
  - split; [simpl; lia|]. intros id' t' Hin. apply list_elem_of_singleton in Hin.
    by injection Hin as -> ->.
Qed.

Lemma at_most_one_debounce_timer_witness :
  let w := run defaultMount [onSelectionChange ["a.wav"]; Elapse 100;
                             onAngleRangeSelect ["b.wav"]; Elapse 100] in
  debounceRef w = Some 2 ∧ clock w < 400.
Proof.
  intros w.
  destruct (at_most_one_debounce_timer "whisper-base" "common-voice" [] None false
              [onSelectionChange ["a.wav"]; Elapse 100;
               onAngleRangeSelect ["b.wav"]; Elapse 100]) as [_ Hlive].
  apply (Hlive 2 {| deadline := 400; selectedFiles := ["b.wav"];
                    rendered := ui (run defaultMount [onSelectionChange ["a.wav"];
                                                      Elapse 100]) |}).
  vm_compute. left.
Defined.

(** ** The stored selections *)

Lemma handleAngleRangeSelect_planar (files : list string) (w : world) :
  selectedPoints2D (ui (handleAngleRangeSelect files w)) = selectedPoints2D (ui w).
Proof.
  unfold handleAngleRangeSelect. case_bool_decide; [|reflexivity].
  simpl. by destruct (debounceRef w).
Qed.

Lemma handle2DSelectionChange_angle (files : list string) (w : world) :
  selectedByAngle (ui (handle2DSelectionChange files w)) = selectedByAngle (ui w).
Proof.
  unfold handle2DSelectionChange. case_bool_decide; [|reflexivity].
  simpl. by destruct (debounceRef w).
Qed.

Lemma selections_outsideAnalysis (p p' : panel) :
  outsideAnalysis p' = outsideAnalysis p → selections p' = selections p.
Proof. unfold outsideAnalysis, selections. intros H. congruence. Qed.

Lemma analysisTypeEffect_selections (p : panel) :
  selections (analysisTypeEffect p) = selections p.
Proof.
  unfold analysisTypeEffect. case_bool_decide; [done|].
  by destruct (getAvailableAnalysisTypes (model p)).
Qed.

(** Only the selection handlers and the analysis-type select write the
    selections; the select empties both. *)
Lemma step_notSelection_selections (w : world) (e : event) :
  notSelection e →
  selections (ui (step w e)) = selections (ui w) ∨ selections (ui (step w e)) = ([], []).
Proof.
  intros He. destruct e; simpl in *; try done.
  - case_bool_decide; [by right | by left].
  - left. unfold handleReductionMethodChange. case_bool_decide; by rewrite ?embeddingEffect_ui.
  - left. unfold handle3DToggle. by repeat case_match.
  - left. unfold handleFetchEmbeddings. by repeat case_match.
  - left. rewrite propsChange_ui. cbv zeta.
    case_bool_decide; rewrite ?analysisTypeEffect_selections; by destruct files'.
  - by left.
  - left. apply selections_outsideAnalysis, elapse_outsideAnalysis.
  - left. unfold respond. destruct (inflight w !! i); [|done].
    apply selections_outsideAnalysis, resume_outsideAnalysis.
Qed.

Lemma step_sorted_selections (w : world) (e : event) :
  (∀ g, sort (stored g (ui w)) = stored g (ui w)) →
  ∀ g, sort (stored g (ui (step w e))) = stored g (ui (step w e)).
Proof.
  intros Hsorted g.
  assert (notSelection e → sort (stored g (ui (step w e))) = stored g (ui (step w e))) as Hns.
  { intros He. destruct (step_notSelection_selections w e He) as [Hs|Hs];
      unfold selections in Hs; injection Hs as Ha Hp.
    - destruct g; simpl; [rewrite Ha | rewrite Hp].
      + apply (Hsorted angleRange).
      + apply (Hsorted planar).
    - destruct g; simpl; [rewrite Ha | rewrite Hp]; apply sort_nil. }
  destruct e; try (by apply Hns); simpl.
  - destruct g; simpl.
    + apply handleAngleRangeSelect_stored.
    + rewrite handleAngleRangeSelect_planar. apply (Hsorted planar).
  - destruct g; simpl.
    + rewrite handle2DSelectionChange_angle. apply (Hsorted angleRange).
    + apply handle2DSelectionChange_stored.
Qed.

(** X4. In every state the mounted panel can reach, both stored selections
    are in sorted order, whatever order the gestures reported the files in;
    so the list of selected files the panel shows is sorted as well. *)
Theorem stored_selections_are_sorted
    (m d : string) (files : list string) (data : option json) (loading : bool)
    (evs : list event) :
  let p := ui (run (mount m d files data loading) evs) in
  StronglySorted String.le (selectedByAngle p) ∧
  StronglySorted String.le (selectedPoints2D p) ∧
  StronglySorted String.le (activeSelection p).
Proof.
  cbv zeta.
  assert (∀ g, sort (stored g (ui (run (mount m d files data loading) evs)))
               = stored g (ui (run (mount m d files data loading) evs))) as Hsorted.
  { induction evs as [|e evs IH] using rev_ind.
    - intros g. unfold run, mount. simpl. rewrite embeddingEffect_ui. simpl.
      pose proof (analysisTypeEffect_selections (initialPanel m d files data loading)) as Hs.
      unfold selections in Hs. injection Hs as Ha Hp.
      destruct g; simpl; [rewrite Ha | rewrite Hp]; apply sort_nil.
    - rewrite run_snoc. by apply step_sorted_selections. }
  assert (∀ g, StronglySorted String.le
                 (stored g (ui (run (mount m d files data loading) evs)))) as Hstrong.
  { intros g. rewrite <- Hsorted. apply sort_StronglySorted. }
  split_and!; [apply (Hstrong angleRange) | apply (Hstrong planar) |].
  unfold activeSelection. destruct (is3D _); [apply (Hstrong angleRange) | apply (Hstrong planar)].
Qed.

Lemma handler_changed_nextTimerId (g : gesture) (files : list string) (w : world) :
  selectionKey (stored g (ui w)) ≠ selectionKey files →
  nextTimerId (handler g files w) = S (nextTimerId w).
Proof.
  intros Hkey.
  destruct (handler_changed g files w Hkey) as (w0 & -> & _ & _ & _ & _ & Hn & _).
  simpl. destruct (cancelPending_frame w0) as (_ & -> & _). by rewrite Hn.
Qed.

Lemma handler_same (g : gesture) (files : list string) (w : world) :
  sort (stored g (ui w)) = stored g (ui w) →
  selectionKey (stored g (ui w)) = selectionKey files →
  handler g files w = w.
Proof.
  destruct g; simpl; [apply handleAngleRangeSelect_same | apply handle2DSelectionChange_same].
Qed.

(** X5. For file names that are not empty and contain no comma, the change
    detection of the selection handlers is exact: with the stored selection
    in sorted order, a call is ignored (the world stays as it is) if and
    only if it reports the same files as the stored selection, in any
    order. *)
Theorem selection_update_ignored_iff_same_files
    (g : gesture) (files : list string) (w : world) :
  Forall plain (stored g (ui w)) →
  Forall plain files →
  sort (stored g (ui w)) = stored g (ui w) →
  handler g files w = w ↔ stored g (ui w) ≡ₚ files.
Proof.
  intros Hstored Hfiles Hsorted. split.
  - intros Hsame.
    destruct (decide (selectionKey (stored g (ui w)) = selectionKey files)) as [Hkey|Hkey].
    + by apply selectionKey_plain_inj.
    + apply (handler_changed_nextTimerId g files w) in Hkey. rewrite Hsame in Hkey. lia.
  - intros Hperm. apply handler_same; [done|]. by apply selectionKey_Permutation.
Qed.

Lemma selection_update_ignored_iff_same_files_witness :
  let w := handler planar ["b.wav"; "a.wav"] defaultMount in
  handler planar ["b.wav"; "a.wav"] w = w ∧
  ¬ ["a.wav"; "b.wav"] ≡ₚ ["a.wav"].
Proof.
  intros w.
  assert (Forall plain ["a.wav"; "b.wav"]) as H2
    by (repeat constructor; done).
  assert (Forall plain ["b.wav"; "a.wav"]) as H2'
    by (repeat constructor; done).
  assert (Forall plain ["a.wav"]) as H1 by (repeat constructor; done).
  assert (stored planar (ui w) = ["a.wav"; "b.wav"]) as Hst by (vm_compute; reflexivity).
  assert (sort (stored planar (ui w)) = stored planar (ui w)) as Hsorted
    by (vm_compute; reflexivity).
  split.
  - apply (selection_update_ignored_iff_same_files planar ["b.wav"; "a.wav"] w);
      [by rewrite Hst | done | done |].
    rewrite Hst. apply Permutation_swap.
  - intros Hperm. apply Permutation_length in Hperm. discriminate Hperm.
Defined.

(** X6. Changing the analysis type hides the analysis panel: both stored
    selections are emptied, and they stay empty (the panel stays hidden)
    through responses, elapsed time, prop and context changes and every
    other event, until a selection handler is called again. *)
Theorem analysis_panel_hidden_after_type_change
    (nonzero : string → bool) (value : AnalysisKind) (w : world) (evs : list event) :
  Forall notSelection evs →
  let w' := run (handleAnalysisTypeChange value w) evs in
  selections (ui w') = ([], []) ∧ analysisPanel nonzero (ui w') = None.
Proof.
  intros Hevs. cbv zeta.
  assert (selections (ui (run (handleAnalysisTypeChange value w) evs)) = ([], [])) as Hs.
  { induction evs as [|e evs IH] using rev_ind; [reflexivity|].
    apply Forall_app in Hevs as [Hevs He]. inversion_clear He as [|?? He' _].
    rewrite run_snoc.
    destruct (step_notSelection_selections
                (run (handleAnalysisTypeChange value w) evs) e He') as [Hsame|Hempty].
    - rewrite Hsame. by apply IH.
    - exact Hempty. }
  split; [exact Hs|]. unfold selections in Hs. injection Hs as Ha Hp.
  unfold analysisPanel. by rewrite Ha, Hp.
Qed.

Lemma analysis_panel_hidden_after_type_change_witness :
  let w := run defaultMount [onSelectionChange ["a.wav"]; Elapse 300] in
  analysisPanel (λ _, true)
    (ui (run (handleAnalysisTypeChange common_terms w)
           [Respond 0 (Resolved 200 "{}" (inr (JObject []))); Elapse 500])) = None.
Proof.
  intros w.
  apply (analysis_panel_hidden_after_type_change (λ _, true) common_terms w
           [Respond 0 (Resolved 200 "{}" (inr (JObject []))); Elapse 500]).
  repeat constructor.
Defined.

(** ** The requests that are sent *)

Lemma debounced_fetched (t : timer) (w : world) :
  fetched (debounced t w) = fetched w ++ requestsOfTimers [(0, t)] ∧
  inflight (debounced t w) = inflight w ++ requestsOfTimers [(0, t)].
Proof.
  unfold requestsOfTimers, debounced. simpl. case_bool_decide as Hlen.
  - rewrite app_nil_r. apply fetchAnalysis_sends. intros Hnil. rewrite Hnil in Hlen.
    simpl in Hlen. lia.
  - simpl. by rewrite !app_nil_r.
Qed.

Lemma firing_fetched (firing : list (nat * timer)) (w : world) :
  fetched (foldl (λ w it, debounced it.2 w) w firing) = fetched w ++ requestsOfTimers firing ∧
  inflight (foldl (λ w it, debounced it.2 w) w firing) = inflight w ++ requestsOfTimers firing.
Proof.
  revert w. induction firing as [|[id t] firing IH]; intros w; simpl.
  - by rewrite !app_nil_r.
  - destruct (IH (debounced t w)) as [-> ->].
    destruct (debounced_fetched t w) as [-> ->].
    unfold requestsOfTimers. simpl. by rewrite !app_nil_r, <- !app_assoc.
Qed.

Lemma firing_frame (firing : list (nat * timer)) (w : world) :
  timerView (foldl (λ w it, debounced it.2 w) w firing) = timerView w ∧
  nextTimerId (foldl (λ w it, debounced it.2 w) w firing) = nextTimerId w ∧
  projections (foldl (λ w it, debounced it.2 w) w firing) = projections w.
Proof.
  revert w. induction firing as [|it firing IH]; intros w; simpl; [done|].
  destruct (IH (debounced it.2 w)) as (-> & -> & ->). apply debounced_frame.
Qed.

(** The requests sent while time passes are those of the timers that come
    due. *)
Lemma elapse_fetched (dt : nat) (w : world) :
  fetched (elapse dt w)
  = fetched w ++ requestsOfTimers (filter (due (clock w + dt)) (timers w)) ∧
  inflight (elapse dt w)
  = inflight w ++ requestsOfTimers (filter (due (clock w + dt)) (timers w)).
Proof.
  unfold elapse. cbv zeta.
  match goal with
  | |- context [foldl _ ?W ?F] => destruct (firing_fetched F W) as [-> ->]
  end.
  done.
Qed.

Lemma elapse_timers (dt : nat) (w : world) :
  timers (elapse dt w) = filter (λ it, ¬ due (clock w + dt) it) (timers w) ∧
  clock (elapse dt w) = clock w + dt ∧
  debounceRef (elapse dt w) = debounceRef w ∧
  projections (elapse dt w) = projections w.
Proof.
  unfold elapse. destruct (firing_frame (filter (due (clock w + dt)) (timers w))
    (atTime (clock w + dt) (filter (λ it, ¬ due (clock w + dt) it) (timers w)) w))
    as (Htv & _ & Hp).
  unfold timerView in Htv. injection Htv as -> -> ->. by rewrite Hp.
Qed.

(** Events other than selection changes and the passing of time leave the
    timer queue, the clock, the ref and the log of analysis requests as
    they are. *)
Lemma step_notTimerEvent_frame (w : world) (e : event) :
  notTimerEvent e →
  timerView (step w e) = timerView w ∧ fetched (step w e) = fetched w.
Proof.
  intros He. destruct e; simpl in *; try done.
  - by case_bool_decide.
  - unfold handleReductionMethodChange, embeddingEffect. by repeat case_match.
  - unfold handle3DToggle. by repeat case_match.
  - unfold handleFetchEmbeddings. by repeat case_match.
  - unfold propsChange, embeddingEffect. cbv zeta. by repeat case_match.
  - unfold respond. by case_match.
Qed.

Lemma analysisRequest_wellFormed (r : panel) (files : list string) :
  files ≠ [] → sort files = files → legalKind r →
  wellFormedRequest (analysisRequest r files).
Proof.
  intros Hne Hsorted Hlegal. unfold legalKind in Hlegal.
  assert (requestDataset r ≠ Some EmptyString) as Hd.
  { unfold requestDataset, truthy. case_bool_decide; [|done]. by intros [= ?]. }
  unfold wellFormedRequest, analysisRequest.
  destruct (analysisType r) eqn:Hk; simpl; split_and!; try done; try (by eexists).
  exists (model r). split; [done|]. by apply legal_common_terms.
Qed.

Lemma requestsOfTimers_wellFormed (firing : list (nat * timer)) :
  Forall (λ it, wellFormedTimer it.2) firing →
  Forall wellFormedRequest (requestsOfTimers firing).
Proof.
  induction 1 as [|[id t] firing [Hsorted Hlegal] _ IH]; [constructor|].
  unfold requestsOfTimers. simpl. case_bool_decide as Hlen; [|exact IH].
  constructor; [|exact IH]. apply analysisRequest_wellFormed; [|done..].
  intros Hnil. simpl in Hlen. rewrite Hnil in Hlen. simpl in Hlen. lia.
Qed.

Lemma Forall_filter_timers (P Q : nat * timer → Prop) `{!∀ it, Decision (Q it)}
    (l : list (nat * timer)) :
  Forall P l → Forall P (filter Q l).
Proof.
  rewrite !Forall_forall. intros Hall it Hin. apply list_elem_of_filter in Hin as [_ Hin].
  by apply Hall.
Qed.

Lemma cancelPending_wellFormed (w : world) :
  Forall (λ it, wellFormedTimer it.2) (timers w) →
  Forall (λ it, wellFormedTimer it.2) (timers (cancelPending w)).
Proof.
  intros H. unfold cancelPending. destruct (debounceRef w); [|done].
  simpl. by apply Forall_filter_timers.
Qed.

Lemma handler_requestInvariant (g : gesture) (files : list string) (w : world) :
  requestInvariant w → requestInvariant (handler g files w).
Proof.
  intros (Hlegal & Htimers & Hfetched).
  assert (legalKind (ui (handler g files w))) as Hlegal'.
  { apply (legalKind_closureView (ui w)); [apply handler_closureView | done]. }
  destruct (decide (selectionKey (stored g (ui w)) = selectionKey files)) as [Hkey|Hkey].
  - destruct (handler_same_effect g files w Hkey) as (Htv & _ & _ & Hf & _).
    unfold timerView in Htv. injection Htv as _ Ht _.
    split_and!; [done | by rewrite Ht | by rewrite Hf].
  - destruct (handler_changed g files w Hkey)
      as (w0 & Heq & _ & _ & _ & Htv & _ & _ & Hf & _).
    unfold timerView in Htv. injection Htv as _ Ht _.
    split_and!; [done | |].
    + rewrite Heq. simpl. apply Forall_app. split.
      * apply cancelPending_wellFormed. by rewrite Ht.
      * constructor; [|constructor]. split; simpl; [apply sort_idemp | done].
    + rewrite Heq. simpl. destruct (cancelPending_frame w0) as (_ & _ & _ & _ & -> & _).
      by rewrite Hf.
Qed.

Lemma step_requestInvariant (w : world) (e : event) :
  requestInvariant w → requestInvariant (step w e).
Proof.
  intros Hinv.
  assert (notTimerEvent e → requestInvariant (step w e)) as Hother.
  { intros He. destruct Hinv as (Hlegal & Htimers & Hfetched).
    destruct (step_notTimerEvent_frame w e He) as [Htv Hf].
    unfold timerView in Htv. injection Htv as _ Ht _.
    split_and!; [by apply step_legalKind | by rewrite Ht | by rewrite Hf]. }
  destruct e; try (by apply Hother).
  - by apply (handler_requestInvariant angleRange).
  - by apply (handler_requestInvariant planar).
  - destruct Hinv as (Hlegal & Htimers & Hfetched).
    split_and!; [by apply step_legalKind | |]; simpl.
    + destruct (elapse_timers dt w) as (-> & _). by apply Forall_filter_timers.
    + destruct (elapse_fetched dt w) as [-> _]. apply Forall_app. split; [done|].
      by apply requestsOfTimers_wellFormed, Forall_filter_timers.
Qed.

(** X7. Every analysis request the mounted panel ever sends is well formed:
    its list of file names is not empty and is sorted, a dataset is named
    only if it is not the empty string, a whisper-batch request names a
    model whose name contains "whisper", an audio-frequency-batch request
    names a model, and a wav2vec2-batch request names none. *)
Theorem every_analysis_request_is_well_formed
    (m d : string) (files : list string) (data : option json) (loading : bool)
    (evs : list event) (q : request) :
  q ∈ fetched (run (mount m d files data loading) evs) →
  filenames q ≠ [] ∧
  StronglySorted String.le (filenames q) ∧
  body_dataset q ≠ Some EmptyString ∧
  (url q = whisper_batch →
   ∃ name, body_model q = Some name ∧ includes name "whisper" = true) ∧
  (url q = audio_frequency_batch → is_Some (body_model q)) ∧
  (url q = wav2vec2_batch → body_model q = None).
Proof.
  assert (requestInvariant (run (mount m d files data loading) evs)) as (_ & _ & Hall).
  { induction evs as [|e evs IH] using rev_ind.
    - unfold run. simpl. split_and!.
      + apply (run_legalKind m d files data loading []).
      + unfold mount, embeddingEffect. by case_match.
      + unfold mount, embeddingEffect. by case_match.
    - rewrite run_snoc. by apply step_requestInvariant. }
  intros Hin. rewrite Forall_forall in Hall.
  destruct (Hall q Hin) as (Hne & Hsorted & Hd & Hurl).
  split_and!; [done | rewrite <- Hsorted; apply sort_StronglySorted | done | ..];
    intros Hu; by rewrite Hu in Hurl.
Qed.

Lemma every_analysis_request_is_well_formed_witness :
  StronglySorted String.le ["a.wav"; "b.wav"].
Proof.
  apply (every_analysis_request_is_well_formed "whisper-base" "common-voice" [] None false
           [onAnalysisTypeChange common_terms; onSelectionChange ["b.wav"; "a.wav"];
            Elapse 300]
           {| url := whisper_batch; filenames := ["a.wav"; "b.wav"];
              body_model := Some "whisper-base"; body_dataset := Some "common-voice" |}).
  vm_compute. left.
Defined.

(** ** Projection requests *)

Lemma embeddingEffect_projections (w : world) :
  Forall wellFormedProjection (projections w) →
  Forall wellFormedProjection (projections (embeddingEffect w)).
Proof.
  intros Hall. unfold embeddingEffect. case_match eqn:Hguard; [|done].
  apply andb_true_iff in Hguard as [Hguard _]. apply andb_true_iff in Hguard as [Hlen _].
  apply bool_decide_eq_true in Hlen. simpl. apply Forall_app. split; [done|].
  constructor; [|constructor]. split; simpl.
  - intros Hnil. rewrite Hnil in Hlen. simpl in Hlen. lia.
  - destruct (is3D (ui w)); auto.
Qed.

Lemma step_projections (w : world) (e : event) :
  Forall wellFormedProjection (projections w) →
  Forall wellFormedProjection (projections (step w e)).
Proof.
  intros Hall. destruct e; simpl.
  - destruct (decide (selectionKey (stored angleRange (ui w)) = selectionKey files)) as [Hk|Hk].
    + destruct (handler_same_effect angleRange files w Hk) as (_ & _ & _ & _ & Hp & _).
      simpl in Hp. by rewrite Hp.
    + destruct (handler_changed angleRange files w Hk) as (w0 & Heq & _ & _ & _ & _ & _ & _ & _ & Hp).
      simpl in Heq. rewrite Heq. simpl.
      destruct (cancelPending_frame w0) as (_ & _ & _ & _ & _ & ->). by rewrite Hp.
  - destruct (decide (selectionKey (stored planar (ui w)) = selectionKey files)) as [Hk|Hk].
    + destruct (handler_same_effect planar files w Hk) as (_ & _ & _ & _ & Hp & _).
      simpl in Hp. by rewrite Hp.
    + destruct (handler_changed planar files w Hk) as (w0 & Heq & _ & _ & _ & _ & _ & _ & _ & Hp).
      simpl in Heq. rewrite Heq. simpl.
      destruct (cancelPending_frame w0) as (_ & _ & _ & _ & _ & ->). by rewrite Hp.
  - by case_bool_decide.
  - unfold handleReductionMethodChange. case_bool_decide; [|done].
    by apply embeddingEffect_projections.
  - destruct (isLoading (ui w)); [done|]. unfold handle3DToggle.
    case_match eqn:Hguard; [|done].
    apply andb_true_iff in Hguard as [_ Hlen]. apply bool_decide_eq_true in Hlen.
    simpl. apply Forall_app. split; [done|]. constructor; [|constructor]. split; simpl.
    + intros Hnil. rewrite Hnil in Hlen. simpl in Hlen. lia.
    + destruct checked; auto.
  - destruct (isLoading (ui w) || bool_decide (length (availableFiles (ui w)) = 0))
      eqn:Hgate; [done|].
    apply orb_false_iff in Hgate as [_ Hlen]. apply bool_decide_eq_false in Hlen.
    unfold handleFetchEmbeddings. rewrite bool_decide_eq_true_2 by lia.
    simpl. apply Forall_app. split; [done|]. constructor; [|constructor]. split; simpl.
    + intros Hnil. by rewrite Hnil in Hlen.
    + destruct (is3D (ui w)); auto.
  - unfold propsChange. cbv zeta. case_match; [|by case_match; destruct files'].
    apply embeddingEffect_projections. by case_match; destruct files'.
  - done.
  - by destruct (elapse_timers dt w) as (_ & _ & _ & ->).
  - unfold respond. by case_match.
Qed.

(** X8. Every projection request the mounted panel ever issues, whether
    from the effect, the refresh button or the 3D switch, is for a file
    list that is not empty and for 2 or 3 components. *)
Theorem every_projection_request_has_files
    (m d : string) (files : list string) (data : option json) (loading : bool)
    (evs : list event) (q : projection) :
  q ∈ projections (run (mount m d files data loading) evs) →
  proj_files q ≠ [] ∧ (nComponents q = 2 ∨ nComponents q = 3).
Proof.
  assert (Forall wellFormedProjection (projections (run (mount m d files data loading) evs)))
    as Hall.
  { induction evs as [|e evs IH] using rev_ind.
    - unfold run, mount. simpl. by apply embeddingEffect_projections.
    - rewrite run_snoc. by apply step_projections. }
  intros Hin. rewrite Forall_forall in Hall. by apply Hall.
Qed.

Lemma every_projection_request_has_files_witness :
  ["a.wav"] ≠ [] ∧ (3 = 2 ∨ 3 = 3).
Proof.
  apply (every_projection_request_has_files "whisper-base" "common-voice" ["a.wav"]
           (Some (JObject [])) false [on3DToggle true]
           {| proj_model := "whisper-base"; proj_dataset := "common-voice";
              proj_files := ["a.wav"]; proj_method := "pca"; nComponents := 3 |}).
  vm_compute. right. left.
Defined.

(** X9. Whenever the hint to click the refresh button is shown (there are
    files, no embedding data, nothing loading), the button is enabled and a
    click issues one projection request for all files in the same step; the
    click does so whenever it is enabled, also with an empty model or
    dataset, for which the automatic effect issues nothing. *)
Theorem refresh_click_requests_projection (w : world) :
  (refreshHint (ui w) = true → refreshDisabled (ui w) = false) ∧
  (refreshDisabled (ui w) = false →
   projections (step w onRefreshClick)
   = projections w ++ [projectionOf (ui w) (reductionMethod (ui w)) (is3D (ui w))]) ∧
  (refreshDisabled (ui w) = true → step w onRefreshClick = w) ∧
  (model (ui w) = EmptyString ∨ dataset (ui w) = EmptyString → embeddingEffect w = w).
Proof.
  split_and!.
  - unfold refreshHint, refreshDisabled. rewrite !andb_true_iff, !negb_true_iff.
    intros [[Hlen _] ->]. apply bool_decide_eq_true in Hlen. simpl.
    apply bool_decide_eq_false. lia.
  - unfold refreshDisabled. intros Hen. simpl. rewrite Hen.
    apply orb_false_iff in Hen as [_ Hlen]. apply bool_decide_eq_false in Hlen.
    unfold handleFetchEmbeddings. rewrite bool_decide_eq_true_2 by lia. reflexivity.
  - unfold refreshDisabled. intros Hdis. simpl. by rewrite Hdis.
  - intros Hempty. unfold embeddingEffect, truthy.
    destruct Hempty as [-> | ->]; simpl; by rewrite ?andb_false_r.
Qed.

Lemma refresh_click_requests_projection_witness :
  let w := run (mount EmptyString "common-voice" ["a.wav"] None false) [] in
  projections w = [] ∧
  (nComponents <$> projections (step w onRefreshClick)) = [2].
Proof.
  intros w.
  destruct (refresh_click_requests_projection w) as (Hhint & Hclick & _ & Heffect).
  split; [vm_compute; reflexivity|].
  rewrite Hclick; [vm_compute; reflexivity|].
  apply Hhint. vm_compute. reflexivity.
Defined.

(** ** Unmounting *)

(** X10. The cleanup of the unmount effect cancels the pending debounce
    timer: in a state the panel can be in (at most one live timer, the one
    the ref holds), no timer is live after the cleanup, and however much
    time passes no analysis request is sent and the panel state is not
    written. *)
Theorem unmount_cancels_pending_fetch (w : world) (dt : nat) :
  debounceInvariant w = true →
  let w' := unmountCleanup w in
  timers w' = [] ∧
  fetched (elapse dt w') = fetched w ∧
  inflight (elapse dt w') = inflight w ∧
  ui (elapse dt w') = ui w.
Proof.
  intros Hinv. cbv zeta. change (unmountCleanup w) with (cancelPending w).
  pose proof (cancelPending_timers w Hinv) as Hnil.
  destruct (cancelPending_frame w) as (_ & _ & _ & Hi & Hf & _).
  rewrite (elapse_no_timer dt _ Hnil). simpl.
  by rewrite cancelPending_ui, Hi, Hf.
Qed.

Lemma unmount_cancels_pending_fetch_witness :
  let w := run defaultMount [onSelectionChange ["a.wav"]; Elapse 100] in
  (filenames <$> fetched (elapse 200 w)) = [["a.wav"]] ∧
  fetched (elapse 200 (unmountCleanup w)) = [].
Proof.
  intros w. split; [vm_compute; reflexivity|].
  assert (debounceInvariant w = true) as Hinv by (vm_compute; reflexivity).
  destruct (unmount_cancels_pending_fetch w 200 Hinv) as (_ & -> & _).
  vm_compute. reflexivity.
Defined.

(** ** What a pending timer sends *)

Lemma run_notTimerEvent_frame (w : world) (evs : list event) :
  Forall notTimerEvent evs →
  timerView (run w evs) = timerView w ∧ fetched (run w evs) = fetched w.
Proof.
  induction evs as [|e evs IH] using rev_ind; intros Hevs; [done|].
  apply Forall_app in Hevs as [Hevs He]. inversion_clear He as [|?? He' _].
  rewrite run_snoc. destruct (step_notTimerEvent_frame (run w evs) e He') as [-> ->].
  by apply IH.
Qed.

(** X11. A pending debounced fetch keeps the closure it was created in:
    after a selection change, events that are neither selection changes nor
    the passing of time (a change of the analysis type, of the model or
    dataset, the 3D switch, responses) do not cancel the timer, and when it
    fires the request is built from the analysis type, model and dataset the
    panel had when the selection was made, not from the current ones. *)
Theorem pending_fetch_keeps_its_closure
    (g : gesture) (files : list string) (w : world) (evs : list event) (quiet : nat) :
  debounceInvariant w = true →
  selectionKey (stored g (ui w)) ≠ selectionKey files →
  files ≠ [] →
  Forall notTimerEvent evs →
  300 ≤ quiet →
  let w' := run (handler g files w) evs in
  timers w' = timers (handler g files w) ∧
  fetched (elapse quiet w') = fetched w ++ [analysisRequest (ui w) (sort files)].
Proof.
  intros Hinv Hkey Hne Hevs Hq. cbv zeta.
  destruct (handler_changed_effect g files w Hinv Hkey) as (Ht & _ & Hc & _ & Hf & _).
  destruct (run_notTimerEvent_frame (handler g files w) evs Hevs) as [Htv Hf'].
  unfold timerView in Htv. injection Htv as Hc' Ht' _.
  split; [exact Ht'|].
  destruct (elapse_fetched quiet (run (handler g files w) evs)) as [-> _].
  rewrite Hf', Hf, Ht', Ht, Hc', Hc. rewrite filter_cons, filter_nil.
  rewrite decide_True by (unfold due; simpl; lia).
  unfold requestsOfTimers. simpl. rewrite bool_decide_eq_true_2; [done|].
  pose proof (sort_nonempty files Hne). destruct (sort files); [done | simpl; lia].
Qed.

(** The analysis type is switched to common-terms while the fetch of a
    selection made under audio-features is pending: the request that goes
    out is the audio-frequency one. *)
Lemma pending_fetch_keeps_its_closure_witness :
  let w' := run (handler planar ["a.wav"] defaultMount)
                [onAnalysisTypeChange common_terms] in
  analysisType (ui w') = common_terms ∧
  (url <$> fetched (elapse 300 w')) = [audio_frequency_batch].
Proof.
  intros w'. split; [vm_compute; reflexivity|].
  assert (debounceInvariant defaultMount = true) as Hinv by (vm_compute; reflexivity).
  assert (selectionKey (stored planar (ui defaultMount)) ≠ selectionKey ["a.wav"]) as Hkey
    by (vm_compute; discriminate).
  destruct (pending_fetch_keeps_its_closure planar ["a.wav"] defaultMount
              [onAnalysisTypeChange common_terms] 300 Hinv Hkey
              ltac:(discriminate) ltac:(repeat constructor) ltac:(lia)) as [_ Hf].
  unfold w'. rewrite Hf. vm_compute. reflexivity.
Defined.

(** X12. The two selection handlers share one debounce timer: a change of
    the planar selection within the quiet period of a change of the
    angle-range selection cancels the pending fetch of the latter.  Only the
    planar selection is requested; the angle-range selection stays stored
    without ever being fetched, and reporting it again is taken for no
    change. *)
Theorem planar_change_cancels_angle_fetch
    (filesA filesP : list string) (gap quiet : nat) (w : world) :
  debounceInvariant w = true →
  selectionKey (selectedByAngle (ui w)) ≠ selectionKey filesA →
  selectionKey (selectedPoints2D (ui w)) ≠ selectionKey filesP →
  filesP ≠ [] →
  gap < 300 →
  300 ≤ quiet →
  let w' := elapse quiet (handle2DSelectionChange filesP
                            (elapse gap (handleAngleRangeSelect filesA w))) in
  fetched w' = fetched w ++ [analysisRequest (ui w) (sort filesP)] ∧
  selectedByAngle (ui w') = sort filesA ∧
  timers w' = [] ∧
  handleAngleRangeSelect filesA w' = w'.
Proof.
  intros Hinv HkA HkP Hne Hgap Hq. cbv zeta.
  destruct (change_then_wait angleRange filesA gap w Hinv HkA Hgap)
    as (Hinv1 & Hui1 & _ & Hf1 & Hst1 & _ & Hcl1).
  simpl in Hinv1, Hui1, Hf1, Hst1, Hcl1.
  set (w1 := elapse gap (handleAngleRangeSelect filesA w)) in *.
  assert (selectedPoints2D (ui w1) = selectedPoints2D (ui w)) as Hp1
    by (by rewrite Hui1, handleAngleRangeSelect_planar).
  assert (selectionKey (stored planar (ui w1)) ≠ selectionKey filesP) as HkP1
    by (simpl; by rewrite Hp1).
  pose proof (change_then_fire planar filesP quiet w1 Hinv1 HkP1 Hq) as Hfire.
  simpl in Hfire. rewrite Hfire.
  set (t := {| deadline := _ |}). set (w2 := atTime _ _ _).
  destruct (debounced_sends t w2) as [Hsent _]; [by apply sort_nonempty|].
  destruct (debounced_frame t w2) as ([= _ Htimers _] & _).
  destruct (handler_changed_effect planar filesP w1 Hinv1 HkP1)
    as (_ & _ & _ & _ & Hf2 & _).
  assert (selectedByAngle (ui (debounced t w2)) = sort filesA) as Hangle.
  { destruct (outsideAnalysis_selections _ _ (debounced_outsideAnalysis t w2)) as [-> _].
    subst w2. simpl. by rewrite handle2DSelectionChange_angle. }
  split_and!.
  - rewrite Hsent. subst t w2. simpl. simpl in Hf2. rewrite Hf2, Hf1.
    by rewrite (analysisRequest_closure _ (ui w)).
  - exact Hangle.
  - exact Htimers.
  - apply handleAngleRangeSelect_same; rewrite Hangle;
      [apply sort_idemp | apply selectionKey_sort].
Qed.

Lemma planar_change_cancels_angle_fetch_witness :
  let w' := elapse 300 (handle2DSelectionChange ["p.wav"]
                          (elapse 100 (handleAngleRangeSelect ["a.wav"] defaultMount))) in
  (filenames <$> fetched w') = [["p.wav"]] ∧ selectedByAngle (ui w') = ["a.wav"].
Proof.
  intros w'.
  assert (debounceInvariant defaultMount = true) as Hinv by (vm_compute; reflexivity).
  destruct (planar_change_cancels_angle_fetch ["a.wav"] ["p.wav"] 100 300 defaultMount Hinv
              ltac:(vm_compute; discriminate) ltac:(vm_compute; discriminate)
              ltac:(discriminate) ltac:(lia) ltac:(lia)) as (Hf & Ha & _).
  split.
  - unfold w'. rewrite Hf. vm_compute. reflexivity.
  - unfold w'. rewrite Ha. vm_compute. reflexivity.
Defined.

(** ** Responses and the flags *)

Lemma resume_failure_error (u : endpoint) (r : response) (p : panel) :
  failed r = true → is_Some (analysisError (resume u r p)).
Proof.
  intros Hf. destruct r as [e|status text parsed]; simpl in Hf.
  - destruct u; by eexists.
  - destruct u; unfold resume, fetchFrequencyAnalysis_resume,
      fetchBatchPredictions_resume, fetchWhisperAnalysis_resume, awaitAnalysis;
      destruct (ok status); try (by eexists); destruct parsed; try discriminate Hf;
      by eexists.
Qed.

Lemma resume_success_error (u : endpoint) (status : N) (text : string) (analysis : json)
    (p : panel) :
  ok status = true →
  analysisError (resume u (Resolved status text (inr analysis)) p) = analysisError p.
Proof.
  intros Hok. destruct u; unfold resume, fetchFrequencyAnalysis_resume,
    fetchBatchPredictions_resume, fetchWhisperAnalysis_resume, awaitAnalysis;
    by rewrite Hok.
Qed.

(** X13. Every response clears the loading flag, also while other requests
    are still pending: with two or more fetches in flight, the first
    response to arrive (of any outcome) turns the loading indicator off
    although a fetch remains in flight. *)
Theorem response_clears_loading_while_others_pending
    (w : world) (i : nat) (q : request) (r : response) :
  inflight w !! i = Some q →
  2 ≤ length (inflight w) →
  let w' := respond i r w in
  isLoadingAnalysis (ui w') = false ∧
  length (inflight w') = length (inflight w) - 1 ∧
  inflight w' ≠ [].
Proof.
  intros Hq Hlen. cbv zeta.
  assert (length (inflight (respond i r w)) = length (inflight w) - 1) as Hl.
  { unfold respond. rewrite Hq. simpl. rewrite length_delete by (by eexists). lia. }
  split_and!.
  - rewrite (respond_ui w i q r Hq). apply resume_loading.
  - exact Hl.
  - intros Hnil. rewrite Hnil in Hl. simpl in Hl. lia.
Qed.

Lemma response_clears_loading_while_others_pending_witness :
  let w := run defaultMount [onSelectionChange ["a.wav"]; Elapse 300;
                             onSelectionChange ["b.wav"]; Elapse 300] in
  isLoadingAnalysis (ui w) = true ∧
  isLoadingAnalysis (ui (respond 0 (Resolved 200 "{}" (inr (JObject []))) w)) = false ∧
  (filenames <$> inflight (respond 0 (Resolved 200 "{}" (inr (JObject []))) w))
  = [["b.wav"]].
Proof.
  intros w.
  assert (inflight w !! 0 =
          Some {| url := audio_frequency_batch; filenames := ["a.wav"];
                  body_model := Some "whisper-base";
                  body_dataset := Some "common-voice" |}) as Hq
    by (vm_compute; reflexivity).
  assert (2 ≤ length (inflight w)) as Hlen by (vm_compute; lia).
  destruct (response_clears_loading_while_others_pending w 0 _
              (Resolved 200 "{}" (inr (JObject []))) Hq Hlen) as (Hload & _).
  split_and!; [vm_compute; reflexivity | exact Hload | vm_compute; reflexivity].
Defined.

(** X14. A late failure of an older request erases a newer result of the
    same kind: if request A was sent before request B to the same endpoint,
    B's response arrives with a parsed body and A's response arrives
    afterwards as a failure, then the result B committed is removed (all
    three slots are empty) and A's error message is recorded. *)
Theorem late_failure_erases_newer_result
    (w : world) (i j : nat) (qA qB : request) (rA : response)
    (statusB : N) (textB : string) (b : json) :
  inflight w !! i = Some qA →
  inflight w !! j = Some qB →
  i < j →
  url qA = url qB →
  failed rA = true →
  ok statusB = true →
  let wB := respond j (Resolved statusB textB (inr b)) w in
  let wA := respond i rA wB in
  slots (ui wB) = only (url qB) (slotValue b) ∧
  slots (ui wA) = (None, None, None) ∧
  is_Some (analysisError (ui wA)) ∧
  isLoadingAnalysis (ui wA) = false.
Proof.
  intros HA HB Hlt Hurl Hfail Hok. cbv zeta.
  assert (inflight (respond j (Resolved statusB textB (inr b)) w) !! i = Some qA) as HA'.
  { unfold respond. rewrite HB. simpl. by rewrite list_lookup_delete_lt. }
  assert (slots (ui (respond j (Resolved statusB textB (inr b)) w))
          = only (url qB) (slotValue b)) as HsB.
  { rewrite (respond_ui w j qB _ HB). by apply resume_success. }
  split_and!; [exact HsB | | |].
  - rewrite (respond_ui _ i qA _ HA'). rewrite (resume_failure _ _ _ Hfail).
    revert HsB. rewrite Hurl. unfold slots, only, without. destruct (url qB); congruence.
  - rewrite (respond_ui _ i qA _ HA'). by apply resume_failure_error.
  - rewrite (respond_ui _ i qA _ HA'). apply resume_loading.
Qed.

Lemma late_failure_erases_newer_result_witness :
  let w := run defaultMount [onSelectionChange ["a.wav"]; Elapse 300;
                             onSelectionChange ["b.wav"]; Elapse 300] in
  let wB := respond 1 (Resolved 200 "{}" (inr (JObject []))) w in
  let wA := respond 0 (Resolved 500 "server error" (inl OtherValue)) wB in
  slots (ui wB) = (Some (JObject []), None, None) ∧
  slots (ui wA) = (None, None, None).
Proof.
  intros w wB wA.
  assert (inflight w !! 0 =
          Some {| url := audio_frequency_batch; filenames := ["a.wav"];
                  body_model := Some "whisper-base";
                  body_dataset := Some "common-voice" |}) as HA
    by (vm_compute; reflexivity).
  assert (inflight w !! 1 =
          Some {| url := audio_frequency_batch; filenames := ["b.wav"];
                  body_model := Some "whisper-base";
                  body_dataset := Some "common-voice" |}) as HB
    by (vm_compute; reflexivity).
  destruct (late_failure_erases_newer_result w 0 1 _ _
              (Resolved 500 "server error" (inl OtherValue)) 200%N "{}" (JObject [])
              HA HB ltac:(lia) eq_refl eq_refl eq_refl) as (HsB & HsA & _).
  exact (conj HsB HsA).
Defined.

(** ** Selecting the same files again *)

Lemma propsChange_selections (m d : string) (fs : option (list string)) (w : world) :
  selections (ui (propsChange m d fs w)) = selections (ui w).
Proof.
  rewrite propsChange_ui. cbv zeta.
  case_bool_decide; rewrite ?analysisTypeEffect_selections; by destruct fs.
Qed.

(** X15. Selecting the same files again after a change.  After a change of
    the analysis type the stored selections are empty, so reporting the
    files that were selected before starts a new debounce timer, whose
    fetch uses the new analysis type.  After a change of the model or the
    dataset the selections are kept, so reporting the same files is taken
    for no change: no timer is started and nothing is fetched for the new
    model. *)
Theorem reselecting_after_a_change
    (g : gesture) (files : list string) (value : AnalysisKind)
    (m d : string) (fs : option (list string)) (w : world) :
  debounceInvariant w = true →
  sort (stored g (ui w)) = stored g (ui w) →
  selectionKey (stored g (ui w)) = selectionKey files →
  selectionKey files ≠ selectionKey [] →
  (let w1 := handleAnalysisTypeChange value w in
   timers (handler g files w1)
   = [(nextTimerId w,
       {| deadline := clock w + 300; selectedFiles := sort files; rendered := ui w1 |})] ∧
   analysisType (ui w1) = value) ∧
  (let w2 := propsChange m d fs w in
   handler g files w2 = w2).
Proof.
  intros Hinv Hsorted Hkey Hne. cbv zeta. split.
  - assert (debounceInvariant (handleAnalysisTypeChange value w) = true) as Hinv1
      by (by rewrite (debounceInvariant_ext w)).
    assert (selectionKey (stored g (ui (handleAnalysisTypeChange value w)))
            ≠ selectionKey files) as Hkey1.
    { intros Heq. apply Hne. rewrite <- Heq. by destruct g. }
    destruct (handler_changed_effect g files _ Hinv1 Hkey1) as (Ht & _).
    split; [exact Ht | reflexivity].
  - pose proof (propsChange_selections m d fs w) as Hs. unfold selections in Hs.
    injection Hs as Ha Hp.
    assert (stored g (ui (propsChange m d fs w)) = stored g (ui w)) as Hst
      by (by destruct g).
    apply handler_same; by rewrite Hst.
Qed.

Lemma reselecting_after_a_change_witness :
  let w := run defaultMount [onSelectionChange ["a.wav"]; Elapse 300] in
  handler planar ["a.wav"] (propsChange "whisper-large" "common-voice" None w)
  = propsChange "whisper-large" "common-voice" None w.
Proof.
  intros w.
  apply (reselecting_after_a_change planar ["a.wav"] common_terms
           "whisper-large" "common-voice" None w);
    vm_compute; (reflexivity || discriminate).
Defined.

(** ** From a selection to what the analysis panel shows *)

Lemma analysisRequest_url (r : panel) (files : list string) :
  url (analysisRequest r files) = endpointOfKind (analysisType r).
Proof. unfold analysisRequest. by destruct (analysisType r). Qed.

Lemma fetchAnalysis_ui (r : panel) (files : list string) (w : world) :
  files ≠ [] →
  ui (fetchAnalysis r files w) = setAnalysisError None (setIsLoadingAnalysis true (ui w)).
Proof.
  intros Hne. unfold fetchAnalysis, fetchBatchPredictions, fetchWhisperAnalysis,
    fetchFrequencyAnalysis. destruct files; [done|]. by destruct (analysisType r).
Qed.

Lemma analysisPanel_visible (nonzero : string → bool) (g : gesture) (p : panel) :
  stored g p ≠ [] → analysisPanel nonzero p = Some (analysisBodyOf nonzero p).
Proof.
  intros Hne. unfold analysisPanel.
  destruct g; simpl in Hne.
  - destruct (selectedByAngle p); [done|]. reflexivity.
  - destruct (selectedPoints2D p); [done|]. simpl. by rewrite orb_true_r.
Qed.

Lemma only_target (u : endpoint) (v : option json) (p : panel) :
  slots p = only u v → targetSlot u p = v.
Proof. unfold slots, only. destruct u; simpl; congruence. Qed.

Lemma without_target (u : endpoint) (p p' : panel) :
  slots p' = without u p → targetSlot u p' = None.
Proof. unfold slots, without. destruct u; simpl; congruence. Qed.

Lemma dataBody_object (nonzero : string → bool) (p : panel) (members : list (string * json)) :
  targetSlot (endpointOfKind (analysisType p)) p = Some (JObject members) →
  dataBody nonzero p = bodyOfKind (analysisType p) (JObject members).
Proof.
  unfold dataBody. destruct (analysisType p); simpl; intros ->; reflexivity.
Qed.

Lemma dataBody_empty (nonzero : string → bool) (p : panel) :
  targetSlot (endpointOfKind (analysisType p)) p = None →
  dataBody nonzero p = NoDataBody.
Proof.
  unfold dataBody. destruct (analysisType p); simpl; intros ->; reflexivity.
Qed.

(** The state when the timer of a changed, non-empty selection has fired. *)
Lemma selection_dispatched (g : gesture) (files : list string) (quiet : nat) (w : world) :
  debounceInvariant w = true →
  selectionKey (stored g (ui w)) ≠ selectionKey files →
  files ≠ [] →
  300 ≤ quiet →
  let w1 := elapse quiet (handler g files w) in
  isLoadingAnalysis (ui w1) = true ∧ analysisError (ui w1) = None ∧
  slots (ui w1) = slots (ui w) ∧ stored g (ui w1) = sort files ∧
  analysisType (ui w1) = analysisType (ui w) ∧
  inflight w1 !! length (inflight w) = Some (analysisRequest (ui w) (sort files)).
Proof.
  intros Hinv Hkey Hne Hq. cbv zeta.
  destruct (handler_changed_effect g files w Hinv Hkey)
    as (_ & _ & _ & Hi & _ & _ & Hst & Hsl & Hcl & _).
  rewrite (change_then_fire g files quiet w Hinv Hkey Hq).
  set (t := {| deadline := _ |}). set (w0 := atTime _ _ _).
  destruct (debounced_sends t w0) as [_ Hpending]; [by apply sort_nonempty|].
  assert (ui (debounced t w0)
          = setAnalysisError None (setIsLoadingAnalysis true (ui (handler g files w)))) as Hui.
  { unfold debounced. rewrite bool_decide_eq_true_2.
    - rewrite fetchAnalysis_ui; [done | by apply sort_nonempty].
    - simpl. pose proof (sort_nonempty files Hne). destruct (sort files); [done | simpl; lia]. }
  rewrite Hui. split_and!; try reflexivity.
  - exact Hsl.
  - destruct g; exact Hst.
  - unfold closureView in Hcl. by injection Hcl.
  - rewrite Hpending. subst t w0. simpl. rewrite Hi. by apply list_lookup_middle.
Qed.

(** X16. From a selection to its result.  A selection change with a
    non-empty selection, followed by the quiet period, leaves the panel
    loading with a previous error cleared and the old results still in their
    slots; the analysis panel renders the loading line.  When the response
    to that request then arrives with a success status and a JSON object as
    body, the analysis panel renders the branch of the active analysis type,
    from exactly that object. *)
Theorem selection_leads_to_its_result
    (nonzero : string → bool) (g : gesture) (files : list string) (quiet : nat) (w : world)
    (status : N) (text : string) (members : list (string * json)) :
  debounceInvariant w = true →
  selectionKey (stored g (ui w)) ≠ selectionKey files →
  files ≠ [] →
  300 ≤ quiet →
  ok status = true →
  let w1 := elapse quiet (handler g files w) in
  let w2 := respond (length (inflight w)) (Resolved status text (inr (JObject members))) w1 in
  analysisPanel nonzero (ui w1) = Some (LoadingBody (analysisType (ui w))) ∧
  analysisError (ui w1) = None ∧
  slots (ui w1) = slots (ui w) ∧
  analysisPanel nonzero (ui w2)
  = Some (bodyOfKind (analysisType (ui w)) (JObject members)).
Proof.
  intros Hinv Hkey Hne Hq Hok. cbv zeta.
  destruct (selection_dispatched g files quiet w Hinv Hkey Hne Hq)
    as (Hload & Herr & Hsl & Hst & Hk & Hreq).
  set (w1 := elapse quiet (handler g files w)) in *.
  assert (stored g (ui w1) ≠ []) as Hvis by (rewrite Hst; by apply sort_nonempty).
  split_and!; [| exact Herr | exact Hsl |].
  - rewrite (analysisPanel_visible nonzero g) by done.
    unfold analysisBodyOf. by rewrite Hload, Hk.
  - pose proof (respond_ui w1 _ _ (Resolved status text (inr (JObject members))) Hreq) as Hui.
    rewrite analysisRequest_url in Hui.
    set (p2 := ui (respond _ _ w1)) in *.
    assert (outsideAnalysis p2 = outsideAnalysis (ui w1)) as Hout
      by (rewrite Hui; apply resume_outsideAnalysis).
    assert (analysisType p2 = analysisType (ui w)) as Hk2.
    { rewrite <- Hk. unfold outsideAnalysis in Hout. congruence. }
    assert (stored g p2 = stored g (ui w1)) as Hst2.
    { destruct (outsideAnalysis_selections _ _ Hout). by destruct g. }
    assert (isLoadingAnalysis p2 = false) as Hload2 by (rewrite Hui; apply resume_loading).
    assert (analysisError p2 = None) as Herr2
      by (rewrite Hui, resume_success_error by done; exact Herr).
    assert (targetSlot (endpointOfKind (analysisType p2)) p2 = Some (JObject members))
      as Hslot.
    { rewrite Hk2. apply only_target. rewrite Hui. by rewrite resume_success. }
    rewrite (analysisPanel_visible nonzero g) by (by rewrite Hst2).
    unfold analysisBodyOf. rewrite Hload2, Herr2.
    by rewrite (dataBody_object nonzero p2 members Hslot), Hk2.
Qed.

Lemma selection_leads_to_its_result_witness :
  let w := run (mount "wav2vec2" "common-voice" [] None false)
               [onAnalysisTypeChange predictions] in
  let w1 := elapse 300 (handler planar ["a.wav"] w) in
  let w2 := respond 0 (Resolved 200 "{}" (inr (JObject []))) w1 in
  analysisPanel (λ _, true) (ui w1) = Some (LoadingBody predictions) ∧
  analysisPanel (λ _, true) (ui w2) = Some (PredictionBody (JObject [])).
Proof.
  intros w w1 w2.
  assert (debounceInvariant w = true) as Hinv by (vm_compute; reflexivity).
  assert (selectionKey (stored planar (ui w)) ≠ selectionKey ["a.wav"]) as Hkey
    by (vm_compute; discriminate).
  destruct (selection_leads_to_its_result (λ _, true) planar ["a.wav"] 300 w 200%N "{}" []
              Hinv Hkey ltac:(discriminate) ltac:(lia) eq_refl) as (H1 & _ & _ & H2).
  exact (conj H1 H2).
Defined.

Lemma resume_rejected_error (u : endpoint) (e : thrown) (p : panel) :
  analysisError (resume u (Rejected e) p) = Some (errorMessage e).
Proof. by destruct u. Qed.

Lemma resume_status_message (u : endpoint) (status : N) (text : string)
    (parsed : thrown + json) (p : panel) :
  ok status = false →
  ∃ what, analysisError (resume u (Resolved status text parsed) p)
          = Some ("Failed to fetch " +:+ what +:+ ": " +:+ pretty status +:+ " - " +:+ text).
Proof.
  intros Hok. destruct u; unfold resume, fetchFrequencyAnalysis_resume,
    fetchBatchPredictions_resume, fetchWhisperAnalysis_resume, awaitAnalysis;
    rewrite Hok; by eexists.
Qed.

(** What the analysis panel shows after a failed fetch of the active
    type. *)
Lemma failure_panel (nonzero : string → bool) (g : gesture) (p : panel) (r : response)
    (message : string) :
  stored g p ≠ [] →
  failed r = true →
  analysisError (resume (endpointOfKind (analysisType p)) r p) = Some message →
  analysisPanel nonzero (resume (endpointOfKind (analysisType p)) r p)
  = Some (if truthy message then ErrorBody message else NoDataBody).
Proof.
  intros Hvis Hfail Herr.
  set (p' := resume (endpointOfKind (analysisType p)) r p) in *.
  assert (outsideAnalysis p' = outsideAnalysis p) as Hout by apply resume_outsideAnalysis.
  assert (analysisType p' = analysisType p) as Hk
    by (unfold outsideAnalysis in Hout; congruence).
  assert (stored g p' = stored g p) as Hst
    by (destruct (outsideAnalysis_selections _ _ Hout); by destruct g).
  assert (isLoadingAnalysis p' = false) as Hload by apply resume_loading.
  assert (targetSlot (endpointOfKind (analysisType p')) p' = None) as Hslot.
  { rewrite Hk. apply (without_target _ p). by apply resume_failure. }
  rewrite (analysisPanel_visible nonzero g) by (by rewrite Hst).
  unfold analysisBodyOf. rewrite Hload, Herr.
  destruct (truthy message); [done|]. by rewrite dataBody_empty.
Qed.

(** X17. What is shown after a failed fetch.  When the response to the
    request of a selection arrives with a status that is not a success, the
    analysis panel shows the error message, which contains the status code
    and the body text.  When the fetch is rejected with an [Error], its
    message is shown, and "Unknown error occurred" for any other thrown
    value; but an [Error] with an empty message is not shown as an error:
    the panel reads "No analysis data available". *)
Theorem failed_fetch_is_shown
    (nonzero : string → bool) (g : gesture) (files : list string) (quiet : nat) (w : world) :
  debounceInvariant w = true →
  selectionKey (stored g (ui w)) ≠ selectionKey files →
  files ≠ [] →
  300 ≤ quiet →
  let w1 := elapse quiet (handler g files w) in
  let shownAfter r := analysisPanel nonzero (ui (respond (length (inflight w)) r w1)) in
  (∀ status text parsed,
     ok status = false →
     ∃ message, shownAfter (Resolved status text parsed) = Some (ErrorBody message) ∧
                includes message (pretty status) = true ∧
                includes message text = true) ∧
  (∀ message, message ≠ EmptyString →
     shownAfter (Rejected (ErrorObject message)) = Some (ErrorBody message)) ∧
  shownAfter (Rejected OtherValue) = Some (ErrorBody "Unknown error occurred") ∧
  shownAfter (Rejected (ErrorObject EmptyString)) = Some NoDataBody.
Proof.
  intros Hinv Hkey Hne Hq. cbv zeta.
  destruct (selection_dispatched g files quiet w Hinv Hkey Hne Hq)
    as (_ & _ & _ & Hst & Hk & Hreq).
  set (w1 := elapse quiet (handler g files w)) in *.
  assert (stored g (ui w1) ≠ []) as Hvis by (rewrite Hst; by apply sort_nonempty).
  assert (∀ r, ui (respond (length (inflight w)) r w1)
               = resume (endpointOfKind (analysisType (ui w1))) r (ui w1)) as Hui.
  { intros r. rewrite (respond_ui w1 _ _ r Hreq). by rewrite analysisRequest_url, Hk. }
  split_and!.
  - intros status text parsed Hok.
    destruct (resume_status_message (endpointOfKind (analysisType (ui w1))) status text
                parsed (ui w1) Hok) as (what & Herr).
    destruct (resume_status (endpointOfKind (analysisType (ui w1))) status text parsed
                (ui w1) Hok) as (message & Herr' & Hs & Ht).
    assert (message = "Failed to fetch " +:+ what +:+ ": " +:+ pretty status +:+ " - " +:+ text)
      as Hm by congruence.
    exists message. split; [|done].
    rewrite Hui, (failure_panel nonzero g _ _ message Hvis); [| by simpl; rewrite Hok | done].
    rewrite Hm. reflexivity.
  - intros message Hm.
    rewrite Hui, (failure_panel nonzero g _ _ message Hvis);
      [| done | apply resume_rejected_error].
    unfold truthy. by rewrite bool_decide_eq_true_2.
  - by rewrite Hui, (failure_panel nonzero g _ _ "Unknown error occurred" Hvis);
      [| | apply resume_rejected_error].
  - by rewrite Hui, (failure_panel nonzero g _ _ EmptyString Hvis);
      [| | apply resume_rejected_error].
Qed.

Lemma failed_fetch_is_shown_witness :
  let w1 := elapse 300 (handler planar ["x.wav"] defaultMount) in
  analysisPanel (λ _, true) (ui (respond 0 (Rejected (ErrorObject EmptyString)) w1))
  = Some NoDataBody ∧
  analysisPanel (λ _, true) (ui (respond 0 (Rejected OtherValue) w1))
  = Some (ErrorBody "Unknown error occurred").
Proof.
  intros w1.
  assert (debounceInvariant defaultMount = true) as Hinv by (vm_compute; reflexivity).
  assert (selectionKey (stored planar (ui defaultMount)) ≠ selectionKey ["x.wav"]) as Hkey
    by (vm_compute; discriminate).
  destruct (failed_fetch_is_shown (λ _, true) planar ["x.wav"] 300 defaultMount
              Hinv Hkey ltac:(discriminate) ltac:(lia)) as (_ & _ & Hother & Hempty).
  exact (conj Hempty Hother).
Defined.

(** ** The dimensionality switch and the list of selected files *)

Lemma handle3DToggle_ui (checked : bool) (w : world) :
  ui (handle3DToggle checked w) = setIs3D checked (ui w).
Proof. unfold handle3DToggle. by case_match. Qed.

(** X18. Switching the dimensionality keeps both selections and the
    analysis results, so the analysis panel renders the branch it rendered
    before;
    but the file count and the list of selected files switch to the
    selection of the new mode.  With files selected in 2D only, the panel
    in 3D is still rendered, with a count of 0 and an empty list. *)
Theorem dimension_switch_keeps_results
    (nonzero : string → bool) (checked : bool) (w : world) :
  let p := ui w in
  let p' := ui (handle3DToggle checked w) in
  analysisPanel nonzero p' = analysisPanel nonzero p ∧
  selections p' = selections p ∧ slots p' = slots p ∧
  activeSelection p' = (if checked then selectedByAngle p else selectedPoints2D p) ∧
  (checked = true → selectedByAngle p = [] → selectedPoints2D p ≠ [] →
   is_Some (analysisPanel nonzero p') ∧ fileCount p' = 0 ∧
   selectedFilesPreview p' = ([], None)).
Proof.
  cbv zeta. rewrite handle3DToggle_ui. split_and!; try reflexivity.
  intros -> Hangle Hplanar.
  unfold fileCount, selectedFilesPreview, activeSelection. simpl. rewrite Hangle.
  split_and!; try reflexivity.
  rewrite (analysisPanel_visible nonzero planar); [by eexists | done].
Qed.

Lemma dimension_switch_keeps_results_witness :
  let w := run defaultMount [onSelectionChange ["a.wav"]; Elapse 300;
                             Respond 0 (Resolved 200 "{}" (inr (JObject [])))] in
  let p' := ui (handle3DToggle true w) in
  analysisPanel (λ _, true) p' = Some (FrequencyBody (JObject [])) ∧ fileCount p' = 0.
Proof.
  intros w p'.
  destruct (dimension_switch_keeps_results (λ _, true) true w) as (Hpanel & _ & _ & _ & Hedge).
  destruct (Hedge eq_refl) as (_ & Hcount & _);
    [vm_compute; reflexivity | vm_compute; discriminate |].
  split; [|exact Hcount]. unfold p'. rewrite Hpanel. vm_compute. reflexivity.
Defined.

Lemma handler_is3D (g : gesture) (files : list string) (w : world) :
  is3D (ui (handler g files w)) = is3D (ui w).
Proof.
  destruct g; simpl.
  - unfold handleAngleRangeSelect. case_bool_decide; [|reflexivity].
    simpl. by destruct (debounceRef w).
  - unfold handle2DSelectionChange. case_bool_decide; [|reflexivity].
    simpl. by destruct (debounceRef w).
Qed.

Lemma handler_changed_stored (g : gesture) (files : list string) (w : world) :
  selectionKey (stored g (ui w)) ≠ selectionKey files →
  stored g (ui (handler g files w)) = sort files.
Proof.
  intros Hkey. destruct (handler_changed g files w Hkey) as (w0 & -> & Hst & _).
  by rewrite setTimeout_debounceRef_ui, cancelPending_ui.
Qed.

Lemma previewRows_spec {A} (k : nat) (rows : list A) :
  (previewRows k rows).1 `prefix_of` rows ∧
  length (previewRows k rows).1 ≤ k ∧
  length (previewRows k rows).1 + default 0 (previewRows k rows).2 = length rows ∧
  ((previewRows k rows).2 = None ↔ length rows ≤ k) ∧
  (previewRows k rows).2 ≠ Some 0.
Proof.
  unfold previewRows. simpl. split_and!.
  - apply prefix_take.
  - rewrite length_take. lia.
  - rewrite length_take. case_bool_decide; simpl; lia.
  - case_bool_decide; split; (done || lia).
  - case_bool_decide; [|done]. intros [= ?]. lia.
Qed.

(** X19. The list of selected files after a selection change in the active
    mode: it shows the first five of the reported files in sorted order,
    whatever order they were reported in, and the line "... and n more" is
    there exactly when more than five files are selected, with n the number
    of files not listed, so that the listed files and n add up to the file
    count. *)
Theorem selected_files_preview_after_change
    (g : gesture) (files : list string) (w : world) :
  selectionKey (stored g (ui w)) ≠ selectionKey files →
  is3D (ui w) = (if g is angleRange then true else false) →
  let p := ui (handler g files w) in
  let listed := (selectedFilesPreview p).1 in
  let more := (selectedFilesPreview p).2 in
  listed = take 5 (sort files) ∧
  fileCount p = length files ∧
  length listed + default 0 more = length files ∧
  (more = None ↔ length files ≤ 5) ∧
  more ≠ Some 0.
Proof.
  intros Hkey Hmode. cbv zeta.
  assert (activeSelection (ui (handler g files w)) = sort files) as Hactive.
  { pose proof (handler_changed_stored g files w Hkey) as Hst.
    unfold activeSelection. rewrite handler_is3D, Hmode. by destruct g. }
  assert (length (sort files) = length files) as Hlen
    by (by rewrite (Permutation_length (sort_Permutation files))).
  unfold selectedFilesPreview, fileCount. rewrite Hactive.
  destruct (previewRows_spec 5 (sort files)) as (_ & _ & Hsum & Hmore & Hzero).
  rewrite Hlen in *. by split_and!.
Qed.

Lemma selected_files_preview_after_change_witness :
  let p := ui (handler planar ["g.wav"; "f.wav"; "e.wav"; "d.wav"; "c.wav"; "b.wav"; "a.wav"]
                 defaultMount) in
  (selectedFilesPreview p).1 = ["a.wav"; "b.wav"; "c.wav"; "d.wav"; "e.wav"] ∧
  fileCount p = 7.
Proof.
  intros p.
  destruct (selected_files_preview_after_change planar
              ["g.wav"; "f.wav"; "e.wav"; "d.wav"; "c.wav"; "b.wav"; "a.wav"] defaultMount
              ltac:(vm_compute; discriminate) eq_refl) as (Hlisted & Hcount & _).
  split; [|exact Hcount]. unfold p. rewrite Hlisted. vm_compute. reflexivity.
Defined.

(** ** Feature labels *)

Lemma includes_underscore_cons (c : ascii) (s : string) :
  includes (String c s) "_" = bool_decide (c = "_"%char) || includes s "_".
Proof.
  cbn [includes startsWith]. destruct (decide ("_"%char = c)) as [<-|Hne].
  - rewrite (bool_decide_eq_true_2 ("_"%char = "_"%char) eq_refl). by destruct s.
  - by rewrite (bool_decide_eq_false_2 (c = "_"%char)) by congruence.
Qed.

(** X20. The label of a feature, [name.replace(/_/g, ' ')]: it has the
    length of the name and no underscore; a name without underscores is
    shown as it is; replacing again changes nothing; and the label of a
    name put together from two parts is the two labels put together. *)
Theorem feature_label_has_no_underscore (name rest : string) :
  String.length (replaceUnderscores name) = String.length name ∧
  includes (replaceUnderscores name) "_" = false ∧
  (includes name "_" = false → replaceUnderscores name = name) ∧
  replaceUnderscores (replaceUnderscores name) = replaceUnderscores name ∧
  replaceUnderscores (name +:+ rest) = replaceUnderscores name +:+ replaceUnderscores rest.
Proof.
  induction name as [|c name (IHlen & IHnone & IHsame & IHidem & IHapp)].
  - split_and!; reflexivity.
  - split_and!.
    + simpl. by rewrite IHlen.
    + cbn [replaceUnderscores]. rewrite includes_underscore_cons, IHnone, orb_false_r.
      destruct (decide (c = "_"%char)) as [->|Hne].
      * reflexivity.
      * by rewrite !(bool_decide_eq_false_2 (c = "_"%char)) by done.
    + rewrite includes_underscore_cons. intros Hnone.
      apply orb_false_iff in Hnone as [Hc Hname].
      cbn [replaceUnderscores]. rewrite Hc. by rewrite (IHsame Hname).
    + cbn [replaceUnderscores]. rewrite IHidem.
      destruct (decide (c = "_"%char)) as [->|Hne].
      * reflexivity.
      * by rewrite !(bool_decide_eq_false_2 (c = "_"%char)) by done.
    + rewrite append_cons. cbn [replaceUnderscores]. by rewrite IHapp, append_cons.
Qed.

Lemma feature_label_has_no_underscore_witness :
  replaceUnderscores "spectral_centroid_mean" = "spectral centroid mean" ∧
  replaceUnderscores "tempo" = "tempo".
Proof.
  split; [vm_compute; reflexivity|].
  apply (proj1 (proj2 (proj2 (feature_label_has_no_underscore "tempo" EmptyString)))).
  vm_compute. reflexivity.
Defined.

(** ** The debounce as a run of events *)

Lemma step_selectionEvent (g : gesture) (files : list string) (w : world) :
  step w (selectionEvent g files) = handler g files w.
Proof. by destruct g. Qed.

Lemma run_burstEvents (g : gesture) (changes : list (list string * nat)) (w : world) :
  run w (burstEvents g changes) = burst g changes w.
Proof.
  revert w. induction changes as [|[files gap] changes IH]; intros w; [done|].
  unfold burstEvents, run in *. simpl. rewrite <- IH. by rewrite step_selectionEvent.
Qed.

Lemma burst_snoc (g : gesture) (changes : list (list string * nat)) (files : list string)
    (gap : nat) (w : world) :
  burst g (changes ++ [(files, gap)]) w = elapse gap (handler g files (burst g changes w)).
Proof.
  revert w. induction changes as [|[f0 g0] changes IH]; intros w; [done|]. simpl. apply IH.
Qed.

(** X21. The debounce on file names that are not empty and contain no
    comma.  In a run of selection changes of one gesture, each reporting
    other files than the one before (the first other files than the stored
    selection) and each less than 300 units after the one before, nothing is
    requested while the changes go on; once 300 units pass after the last,
    non-empty one, exactly one analysis request has been sent, to the
    endpoint of the active analysis type and for exactly the files of the
    last change. *)
Theorem debounce_requests_last_selection_once
    (g : gesture) (changes : list (list string * nat)) (final : list string)
    (quiet : nat) (w : world) :
  debounceInvariant w = true →
  Forall (λ c, c.2 < 300) changes →
  Forall plain (stored g (ui w)) →
  Forall (Forall plain) (changes.*1 ++ [final]) →
  differing (stored g (ui w)) (changes.*1 ++ [final]) →
  final ≠ [] →
  300 ≤ quiet →
  fetched (run w (burstEvents g changes)) = fetched w ∧
  fetched (run w (burstEvents g changes ++ [selectionEvent g final])) = fetched w ∧
  ∃ q, fetched (run w (burstEvents g (changes ++ [(final, quiet)]))) = fetched w ++ [q] ∧
       filenames q ≡ₚ final ∧ url q = endpointOfKind (analysisType (ui w)).
Proof.
  intros Hinv Hgaps Hst Hplain Hdiff Hne Hq.
  pose proof (differing_changing _ _ Hst Hplain Hdiff) as Hch.
  destruct (burst_pending g changes [final] w Hinv Hgaps Hch)
    as (Hinv' & [Hkey _] & _ & Hf & _).
  split_and!.
  - by rewrite run_burstEvents.
  - unfold run. rewrite foldl_app. fold (run w (burstEvents g changes)).
    rewrite run_burstEvents. simpl. rewrite step_selectionEvent.
    by destruct (handler_changed_effect g final _ Hinv' Hkey) as (_ & _ & _ & _ & -> & _).
  - rewrite run_burstEvents, burst_snoc.
    destruct (burst_single_fetch g changes final quiet w Hinv Hgaps Hch Hne Hq) as (Hsent & _).
    eexists. split; [exact Hsent|]. rewrite analysisRequest_url. split; [|done].
    unfold analysisRequest. destruct (analysisType (ui w)); apply sort_Permutation.
Qed.

Lemma debounce_requests_last_selection_once_witness :
  (filenames <$> fetched (run defaultMount
                            (burstEvents planar [(["a.wav"], 100); (["a.wav"; "b.wav"], 299);
                                                 (["c.wav"; "b.wav"; "a.wav"], 300)])))
  = [["a.wav"; "b.wav"; "c.wav"]].
Proof.
  destruct (debounce_requests_last_selection_once planar
              [(["a.wav"], 100); (["a.wav"; "b.wav"], 299)] ["c.wav"; "b.wav"; "a.wav"] 300
              defaultMount) as (_ & _ & q & Hsent & _).
  - vm_compute. reflexivity.
  - repeat constructor; simpl; lia.
  - constructor.
  - repeat constructor; done.
  - simpl. split_and!; try done; intros Hp; apply Permutation_length in Hp; discriminate Hp.
  - discriminate.
  - lia.
  - vm_compute. reflexivity.
Defined.

(** ** The controls while the embedding is loading *)


